(** * kernel/trap.c of xv6 (RISC-V) with demand paging and a watchdog

    A shallow embedding of the trap layer: [scause_desc], [handle_page_fault],
    [usertrap], [usertrapret], [kerneltrap], [clockintr] and [devintr], as
    programs of a small state-and-log monad over the machine state, followed
    by the properties of the dispatch, of the tick counter and of the
    description table. *)

From Stdlib Require Import ZArith List String Bool Lia.
Import ListNotations.
Local Open Scope string_scope.
Local Open Scope list_scope.
Local Open Scope Z_scope.

(** ** Machine words

    [uint64] and [uint] values are integers of [Z]; every arithmetic result
    is reduced to its width where the C code computes it. *)

Module Word.

Definition wrap64 (z : Z) : Z := z mod 2 ^ 64.
Definition wrap32 (z : Z) : Z := z mod 2 ^ 32.

(** The interrupt bit of a cause value: bit 63. *)
Definition top_bit (z : Z) : bool := Z.testbit z 63.

(** [z & 0x8000000000000000L] *)
Definition INTR_MASK : Z := 0x8000000000000000.

End Word.
Import Word.

(** ** The cause description table (lines 288-367) *)

Definition intr_desc : list string :=
  [ "user software interrupt";
    "supervisor software interrupt";
    "<reserved for future standard use>";
    "<reserved for future standard use>";
    "user timer interrupt";
    "supervisor timer interrupt";
    "<reserved for future standard use>";
    "<reserved for future standard use>";
    "user external interrupt";
    "supervisor external interrupt";
    "<reserved for future standard use>";
    "<reserved for future standard use>";
    "<reserved for future standard use>";
    "<reserved for future standard use>";
    "<reserved for future standard use>";
    "<reserved for future standard use>" ].

Definition nointr_desc : list string :=
  [ "instruction address misaligned";
    "instruction access fault";
    "illegal instruction";
    "breakpoint";
    "load address misaligned";
    "load access fault";
    "store/AMO address misaligned";
    "store/AMO access fault";
    "environment call from U-mode";
    "environment call from S-mode";
    "<reserved for future standard use>";
    "<reserved for future standard use>";
    "instruction page fault";
    "load page fault";
    "<reserved for future standard use>";
    "store/AMO page fault" ].

(** [NELEM(x)]: the number of elements of a fixed-size array. *)
Definition NELEM {A} (x : list A) : Z := Z.of_nat (List.length x).

(** [x[i]] for an index already checked against [NELEM]. *)
Definition index (x : list string) (i : Z) : string := nth (Z.to_nat i) x "".

Definition scause_desc (stval : Z) : string :=
  let interrupt := Z.land stval INTR_MASK in
  let code := Z.land stval (wrap64 (Z.lnot INTR_MASK)) in
  if negb (interrupt =? 0) then
    if code <? NELEM intr_desc then index intr_desc code
    else "<reserved for platform use>"
  else
    if code <? NELEM nointr_desc then index nointr_desc code
    else if code <=? 23 then "<reserved for future standard use>"
    else if code <=? 31 then "<reserved for custom use>"
    else if code <=? 47 then "<reserved for future standard use>"
    else if code <=? 63 then "<reserved for custom use>"
    else "<reserved for future standard use>".

(** ** Data model *)

(** [struct trapframe], the fields trap.c touches. *)
Record trapframe := mk_trapframe {
  kernel_satp : Z;
  kernel_sp : Z;
  kernel_trap : Z;
  epc : Z;
  kernel_hartid : Z }.

Inductive procstate := UNUSED | SLEEPING | RUNNABLE | RUNNING | ZOMBIE.

(** [struct proc], the fields trap.c touches; [tf] stands for the frame
    [p->tf] points to. *)
Record proc := mk_proc {
  pid : Z;
  name : string;
  killed : Z;
  tf : trapframe;
  pagetable : Z;
  kstack : Z;
  state : procstate }.

Definition set_epc (v : Z) (t : trapframe) : trapframe :=
  mk_trapframe (kernel_satp t) (kernel_sp t) (kernel_trap t) v (kernel_hartid t).
Definition set_kernel_satp (v : Z) (t : trapframe) : trapframe :=
  mk_trapframe v (kernel_sp t) (kernel_trap t) (epc t) (kernel_hartid t).
Definition set_kernel_sp (v : Z) (t : trapframe) : trapframe :=
  mk_trapframe (kernel_satp t) v (kernel_trap t) (epc t) (kernel_hartid t).
Definition set_kernel_trap (v : Z) (t : trapframe) : trapframe :=
  mk_trapframe (kernel_satp t) (kernel_sp t) v (epc t) (kernel_hartid t).
Definition set_kernel_hartid (v : Z) (t : trapframe) : trapframe :=
  mk_trapframe (kernel_satp t) (kernel_sp t) (kernel_trap t) (epc t) v.

Definition set_killed (v : Z) (p : proc) : proc :=
  mk_proc (pid p) (name p) v (tf p) (pagetable p) (kstack p) (state p).
Definition set_tf (t : trapframe) (p : proc) : proc :=
  mk_proc (pid p) (name p) (killed p) t (pagetable p) (kstack p) (state p).

(** Constants, symbols and macros of the headers (riscv.h, memlayout.h,
    the allocator's error codes) and of the assembly files, none of which is
    among the sources: they are parameters of the development. *)
Record platform := mk_platform {
  SSTATUS_SPP : Z;
  SSTATUS_SPIE : Z;
  SSTATUS_SIE : Z;
  TRAMPOLINE : Z;
  TRAPFRAME : Z;
  trampoline : Z;
  uservec : Z;
  userret : Z;
  kernelvec : Z;
  usertrap_addr : Z;
  MAKE_SATP : Z -> Z;
  UART0_IRQ : Z;
  VIRTIO0_IRQ : Z;
  VIRTIO1_IRQ : Z;
  ENOVMA : Z;
  ENOMEM : Z;
  ENOFILE : Z;
  EMAPFAILED : Z;
  EBADPERM : Z }.

(** Modelled from the spec: riscv.h is not among the sources.  The resolver
    must "round the faulting address down to the containing page boundary";
    pages are the 4096 bytes of RISC-V Sv39 and the macro clears the offset
    bits of a [uint64], as xv6 writes it:
    [#define PGROUNDDOWN(a) (((a)) & ~(PGSIZE-1))]. *)
Definition PGSIZE : Z := 4096.
Definition PGROUNDDOWN (a : Z) : Z := Z.land a (wrap64 (Z.lnot (PGSIZE - 1))).

Inductive lock := tickslock | watchdog_lock | vma_lock.

(** An argument of [printf]. *)
Inductive parg := PInt (z : Z) | PStr (s : string).

(** The calls trap.c makes, to its own functions and to its collaborators,
    with their arguments. *)
Inductive event :=
| Call_acquire (l : lock)
| Call_release (l : lock)
| Call_printf (fmt : string) (args : list parg)
| Call_handle_page_fault (scause stval sepc : Z)
| Call_do_allocate (pagetable addr scause : Z)
| Call_proc_vmprint
| Call_syscall
| Call_yield
| Call_usertrapret
| Call_devintr
| Call_clockintr
| Call_wakeup_ticks
| Call_plic_claim
| Call_uartintr
| Call_virtio_disk_intr (n : Z)
| Call_plic_complete (irq : Z).

(** How a run ends when it does not return to its caller. *)
Inductive stop :=
| Panic (msg : string)          (* panic(): the system halts *)
| Exit (code : Z)               (* exit(): the process terminates *)
| UserRet (fn a0 a1 : Z)        (* the jump to the trampoline's userret *)
| NullProc.                     (* p->... with myproc() == 0 *)

Definition is_syscall (e : event) : bool :=
  match e with Call_syscall => true | _ => false end.
Definition is_devintr (e : event) : bool :=
  match e with Call_devintr => true | _ => false end.
Definition is_clockintr (e : event) : bool :=
  match e with Call_clockintr => true | _ => false end.
Definition is_handle_page_fault (e : event) : bool :=
  match e with Call_handle_page_fault _ _ _ => true | _ => false end.
Definition is_do_allocate (e : event) : bool :=
  match e with Call_do_allocate _ _ _ => true | _ => false end.
Definition is_plic_complete (e : event) : bool :=
  match e with Call_plic_complete _ => true | _ => false end.
Definition is_device_isr (e : event) : bool :=
  match e with Call_uartintr | Call_virtio_disk_intr _ => true | _ => false end.

Section Machine.

(** Everything the collaborators own (page tables and memory areas, the
    interrupt controller, the devices, the scheduler's queues). *)
Variable W : Type.

Record machine := mk_machine {
  sstatus : Z;
  scause : Z;
  stval : Z;
  sepc : Z;
  stvec : Z;
  sip : Z;
  satp : Z;
  tp : Z;
  has_proc : bool;          (* myproc() != 0 *)
  curproc : proc;           (* *myproc() *)
  ticks : Z;                (* uint ticks *)
  watchdog_value : Z;
  watchdog_time : Z;
  world : W }.

Definition set_sstatus v m := mk_machine v (scause m) (stval m) (sepc m) (stvec m)
  (sip m) (satp m) (tp m) (has_proc m) (curproc m) (ticks m) (watchdog_value m)
  (watchdog_time m) (world m).
Definition set_sepc v m := mk_machine (sstatus m) (scause m) (stval m) v (stvec m)
  (sip m) (satp m) (tp m) (has_proc m) (curproc m) (ticks m) (watchdog_value m)
  (watchdog_time m) (world m).
Definition set_stvec v m := mk_machine (sstatus m) (scause m) (stval m) (sepc m) v
  (sip m) (satp m) (tp m) (has_proc m) (curproc m) (ticks m) (watchdog_value m)
  (watchdog_time m) (world m).
Definition set_sip v m := mk_machine (sstatus m) (scause m) (stval m) (sepc m) (stvec m)
  v (satp m) (tp m) (has_proc m) (curproc m) (ticks m) (watchdog_value m)
  (watchdog_time m) (world m).
Definition set_curproc p m := mk_machine (sstatus m) (scause m) (stval m) (sepc m)
  (stvec m) (sip m) (satp m) (tp m) (has_proc m) p (ticks m) (watchdog_value m)
  (watchdog_time m) (world m).
Definition set_ticks v m := mk_machine (sstatus m) (scause m) (stval m) (sepc m)
  (stvec m) (sip m) (satp m) (tp m) (has_proc m) (curproc m) v (watchdog_value m)
  (watchdog_time m) (world m).
Definition set_world w m := mk_machine (sstatus m) (scause m) (stval m) (sepc m)
  (stvec m) (sip m) (satp m) (tp m) (has_proc m) (curproc m) (ticks m)
  (watchdog_value m) (watchdog_time m) w.

(** The log of a run: each call with the machine state it was made in. *)
Definition log := list (event * machine).

Definition calls (l : log) : list event := map fst l.

(** The collaborators.  [syscall] and [yield] may change anything; the
    allocator, the interrupt controller, the device routines and [wakeup]
    act on what they own. *)
Record collab := mk_collab {
  syscall_c : machine -> machine;
  yield_c : machine -> machine;
  do_allocate_c : proc -> Z -> Z -> W -> Z * W;
  plic_claim_c : W -> Z * W;
  plic_complete_c : Z -> W -> W;
  uartintr_c : W -> W;
  virtio_disk_intr_c : Z -> W -> W;
  wakeup_c : W -> W }.

(** ** The monad: state, log, and the ways not to return *)

Inductive outcome (A : Type) :=
| Ret (a : A) (m : machine) (l : log)
| Stop (r : stop) (m : machine) (l : log).
Arguments Ret {A} a m l.
Arguments Stop {A} r m l.

Definition M (A : Type) := machine -> outcome A.

Definition ret {A} (a : A) : M A := fun m => Ret a m [].

(** What was logged before a run comes first. *)
Definition prepend {A} (l : log) (o : outcome A) : outcome A :=
  match o with
  | Ret a m l' => Ret a m (l ++ l')
  | Stop r m l' => Stop r m (l ++ l')
  end.

Definition bind {A B} (c : M A) (k : A -> M B) : M B := fun m =>
  match c m with
  | Ret a m1 l1 => prepend l1 (k a m1)
  | Stop r m1 l1 => Stop r m1 l1
  end.

Definition gets {A} (f : machine -> A) : M A := fun m => Ret (f m) m [].
Definition modify (f : machine -> machine) : M unit := fun m => Ret tt (f m) [].
Definition call (e : event) : M unit := fun m => Ret tt m [(e, m)].
Definition halt {A} (r : stop) : M A := fun m => Stop r m [].
Definition when (b : bool) (c : M unit) : M unit := if b then c else ret tt.

(** The final state and the log of a run, however it ends. *)
Definition final {A} (o : outcome A) : machine :=
  match o with Ret _ m _ | Stop _ m _ => m end.
Definition log_of {A} (o : outcome A) : log :=
  match o with Ret _ _ l | Stop _ _ l => l end.
Definition invoked {A} (f : event -> bool) (o : outcome A) : bool :=
  existsb f (calls (log_of o)).

End Machine.

Arguments mk_machine {W}.
Arguments sstatus {W} m.
Arguments scause {W} m.
Arguments stval {W} m.
Arguments sepc {W} m.
Arguments stvec {W} m.
Arguments sip {W} m.
Arguments satp {W} m.
Arguments tp {W} m.
Arguments has_proc {W} m.
Arguments curproc {W} m.
Arguments ticks {W} m.
Arguments watchdog_value {W} m.
Arguments watchdog_time {W} m.
Arguments world {W} m.
Arguments set_sstatus {W} v m.
Arguments set_sepc {W} v m.
Arguments set_stvec {W} v m.
Arguments set_sip {W} v m.
Arguments set_curproc {W} p m.
Arguments set_ticks {W} v m.
Arguments set_world {W} w m.
Arguments calls {W} l.
Arguments mk_collab {W}.
Arguments syscall_c {W} c.
Arguments yield_c {W} c.
Arguments do_allocate_c {W} c.
Arguments plic_claim_c {W} c.
Arguments plic_complete_c {W} c.
Arguments uartintr_c {W} c.
Arguments virtio_disk_intr_c {W} c.
Arguments wakeup_c {W} c.
Arguments Ret {W A} a m l.
Arguments Stop {W A} r m l.
Arguments ret {W A} a.
Arguments prepend {W A} l o.
Arguments bind {W A B} c k.
Arguments gets {W A} f.
Arguments modify {W} f.
Arguments call {W} e.
Arguments halt {W A} r.
Arguments when {W} b c.
Arguments final {W A} o.
Arguments log_of {W A} o.
Arguments invoked {W A} f o.

Declare Scope trap_scope.
Delimit Scope trap_scope with trap.
Notation "x <- c ;; k" := (bind c (fun x => k))
  (at level 61, c at next level, right associativity) : trap_scope.
Notation "c ;; k" := (bind c (fun _ => k))
  (at level 61, right associativity) : trap_scope.
Local Open Scope trap_scope.

(** C truth of an integer. *)
Definition truthy (z : Z) : bool := negb (z =? 0).

(** ** The functions of trap.c *)

Section Trap.

Context {W : Type} (pf : platform) (co : collab W).

(** Modelled from the spec: the register accessors of riscv.h, "an opaque
    hardware-register interface"; each reads or writes the register of its
    name. *)
Definition r_sstatus : M W Z := gets sstatus.
Definition r_scause : M W Z := gets scause.
Definition r_stval : M W Z := gets stval.
Definition r_sepc : M W Z := gets sepc.
Definition r_sip : M W Z := gets sip.
Definition r_satp : M W Z := gets satp.
Definition r_tp : M W Z := gets tp.
Definition w_sstatus (v : Z) : M W unit := modify (set_sstatus v).
Definition w_sepc (v : Z) : M W unit := modify (set_sepc v).
Definition w_stvec (v : Z) : M W unit := modify (set_stvec v).
Definition w_sip (v : Z) : M W unit := modify (set_sip v).

(** Modelled from the spec: riscv.h's interrupt switches ("re-enable
    interrupts", "disable interrupts", "interrupts were disabled at entry"),
    the supervisor interrupt-enable bit of the status register. *)
Definition intr_on : M W unit :=
  x <- r_sstatus ;; w_sstatus (Z.lor x (SSTATUS_SIE pf)).
Definition intr_off : M W unit :=
  x <- r_sstatus ;; w_sstatus (Z.land x (wrap64 (Z.lnot (SSTATUS_SIE pf)))).
Definition intr_get : M W Z :=
  x <- r_sstatus ;; ret (if truthy (Z.land x (SSTATUS_SIE pf)) then 1 else 0).

(** Modelled from the spec: proc.c's [cpuid], the "core identifier" the
    trap frame keeps for it ([kernel_hartid = r_tp()], "hartid for cpuid()"). *)
Definition cpuid : M W Z := r_tp.

(** Modelled from the spec: [panic] halts the system and the scheduler's
    [exit] terminates the process; neither returns. *)
Definition panic {A} (msg : string) : M W A := halt (Panic msg).
Definition exit {A} (code : Z) : M W A := halt (Exit code).

(** The first use of [p = myproc()] through the pointer. *)
Definition deref_myproc : M W unit :=
  b <- gets has_proc ;; if b then ret tt else halt NullProc.

Definition p_get {A} (f : proc -> A) : M W A := gets (fun m => f (curproc m)).
Definition p_set (f : proc -> proc) : M W unit :=
  modify (fun m => set_curproc (f (curproc m)) m).
Definition tf_set (f : trapframe -> trapframe) : M W unit :=
  p_set (fun p => set_tf (f (tf p)) p).

(** The collaborators, each logged and then run.  The spinlocks and the
    console are logged only: what [acquire] and [release] do to the
    interrupt-enable bit, and waiting for a lock, are not modelled. *)
Definition acquire (l : lock) : M W unit := call (Call_acquire l).
Definition release (l : lock) : M W unit := call (Call_release l).
Definition printf (fmt : string) (args : list parg) : M W unit :=
  call (Call_printf fmt args).
Definition proc_vmprint : M W unit := call Call_proc_vmprint.
Definition on_world {A} (f : W -> A * W) : M W A := fun m =>
  let (a, w) := f (world m) in Ret a (set_world w m) [].
Definition syscall : M W unit := call Call_syscall ;; modify (syscall_c co).
Definition yield : M W unit := call Call_yield ;; modify (yield_c co).
Definition do_allocate (pagetable addr scause : Z) : M W Z :=
  call (Call_do_allocate pagetable addr scause) ;;
  p <- gets curproc ;;
  on_world (do_allocate_c co p addr scause).
Definition plic_claim : M W Z :=
  call Call_plic_claim ;; on_world (plic_claim_c co).
Definition plic_complete (irq : Z) : M W unit :=
  call (Call_plic_complete irq) ;;
  on_world (fun w => (tt, plic_complete_c co irq w)).
Definition uartintr : M W unit :=
  call Call_uartintr ;; on_world (fun w => (tt, uartintr_c co w)).
Definition virtio_disk_intr (n : Z) : M W unit :=
  call (Call_virtio_disk_intr n) ;;
  on_world (fun w => (tt, virtio_disk_intr_c co n w)).
Definition wakeup_ticks : M W unit :=
  call Call_wakeup_ticks ;; on_world (fun w => (tt, wakeup_c co w)).

(** Lines 34-72. *)
Definition handle_page_fault (scause stval sepc : Z) : M W Z :=
  call (Call_handle_page_fault scause stval sepc) ;;
  let addr := PGROUNDDOWN stval in
  acquire vma_lock ;;
  p <- gets curproc ;;
  printf "handle_page_fault pid=%d (%s), scause=%p, stval=%p, sepc=%p\n"
         [PInt (pid p); PStr (name p); PInt scause; PInt stval; PInt sepc] ;;
  flags <- do_allocate (pagetable p) addr scause ;;
  release vma_lock ;;
  if flags <? 0 then
    (if flags =? ENOVMA pf then
       printf "Could not find VMA associated with addr=%p\n" [PInt addr]
     else if flags =? ENOMEM pf then
       printf "No more memory could be allocated from the kernel\n" []
     else if flags =? ENOFILE pf then
       printf "Could not read file associated with memory area\n" []
     else if flags =? EMAPFAILED pf then
       printf "mappages failed for an unknown reason\n" []
     else if flags =? EBADPERM pf then
       printf "Bad permission addr=%p, scause=%p\n" [PInt addr; PInt scause]
     else ret tt) ;;
    proc_vmprint ;;
    printf "unrecoverable page fault by pid=%d at sepc=%p stval=%p scause=%x\n"
           [PInt (pid p); PInt sepc; PInt stval; PInt scause] ;;
    p_set (set_killed 1) ;;
    ret (-1)
  else ret 0.

(** Lines 145-183; the jump through [fn] does not come back. *)
Definition usertrapret : M W unit :=
  call Call_usertrapret ;;
  intr_off ;;
  w_stvec (wrap64 (TRAMPOLINE pf + (uservec pf - trampoline pf))) ;;
  deref_myproc ;;
  v <- r_satp ;; tf_set (set_kernel_satp v) ;;
  k <- p_get kstack ;; tf_set (set_kernel_sp (wrap64 (k + PGSIZE))) ;;
  tf_set (set_kernel_trap (usertrap_addr pf)) ;;
  h <- r_tp ;; tf_set (set_kernel_hartid h) ;;
  x <- r_sstatus ;;
  let x := Z.land x (wrap64 (Z.lnot (SSTATUS_SPP pf))) in
  let x := Z.lor x (SSTATUS_SPIE pf) in
  w_sstatus x ;;
  e <- p_get (fun p => epc (tf p)) ;; w_sepc e ;;
  pt <- p_get pagetable ;;
  let satp := MAKE_SATP pf pt in
  let fn := wrap64 (TRAMPOLINE pf + (userret pf - trampoline pf)) in
  halt (UserRet fn (TRAPFRAME pf) satp).

(** Lines 216-228.  watchdog.h is not among the sources: the two watchdog
    variables are 32-bit integers like [ticks], so that the subtraction and
    the comparison are those of [unsigned int]. *)
Definition elapsed (m : machine W) : Z := wrap32 (ticks m - watchdog_value m).

Definition clockintr : M W unit :=
  call Call_clockintr ;;
  acquire watchdog_lock ;;
  acquire tickslock ;;
  wt <- gets watchdog_time ;;
  e <- gets elapsed ;;
  when (truthy wt && (e >? wrap32 wt)) (panic "watchdog !!!") ;;
  t <- gets ticks ;; modify (set_ticks (wrap32 (t + 1))) ;;
  wakeup_ticks ;;
  release tickslock ;;
  release watchdog_lock.

(** Lines 235-286. *)
Definition devintr : M W Z :=
  call Call_devintr ;;
  scause <- r_scause ;;
  if truthy (Z.land scause INTR_MASK) && (Z.land scause 0xff =? 9) then
    irq <- plic_claim ;;
    (if irq =? UART0_IRQ pf then uartintr
     else if (irq =? VIRTIO0_IRQ pf) || (irq =? VIRTIO1_IRQ pf) then
       virtio_disk_intr (irq - VIRTIO0_IRQ pf)
     else ret tt) ;;
    when (truthy irq) (plic_complete irq) ;;
    ret 1
  else if scause =? 0x8000000000000001 then
    id <- cpuid ;;
    when (id =? 0) clockintr ;;
    x <- r_sip ;; w_sip (Z.land x (wrap64 (Z.lnot 2))) ;;
    ret 2
  else ret 0.

(** Lines 78-140. *)
Definition usertrap : M W unit :=
  x <- r_sstatus ;;
  when (truthy (Z.land x (SSTATUS_SPP pf))) (panic "usertrap: not from user mode") ;;
  w_stvec (kernelvec pf) ;;
  deref_myproc ;;
  v <- r_sepc ;; tf_set (set_epc v) ;;
  scause <- r_scause ;;
  which_dev <-
    (if scause =? 8 then
       k <- p_get killed ;;
       when (truthy k) (exit (-1)) ;;
       e <- p_get (fun p => epc (tf p)) ;; tf_set (set_epc (wrap64 (e + 4))) ;;
       intr_on ;;
       syscall ;;
       ret 0
     else if (scause =? 0xf) || (scause =? 0xd) then
       a <- r_stval ;; pc <- r_sepc ;;
       _ <- handle_page_fault scause a pc ;;
       ret 0
     else if scause =? 0xc then
       a <- r_stval ;; pc <- r_sepc ;;
       _ <- handle_page_fault scause a pc ;;
       ret 0
     else
       d <- devintr ;;
       (if truthy d then ret tt
        else
          c <- r_scause ;; c' <- r_scause ;; i <- p_get pid ;;
          printf "usertrap(): unexpected scause %p (%s) pid=%d\n"
                 [PInt c; PStr (scause_desc c'); PInt i] ;;
          pc <- r_sepc ;; a <- r_stval ;;
          printf "            sepc=%p stval=%p\n" [PInt pc; PInt a] ;;
          p_set (set_killed 1)) ;;
       ret d) ;;
  k <- p_get killed ;;
  when (truthy k) (exit (-1)) ;;
  when (which_dev =? 2) yield ;;
  usertrapret.

(** Lines 187-214. *)
Definition kerneltrap : M W unit :=
  sepc <- r_sepc ;;
  sstatus <- r_sstatus ;;
  scause <- r_scause ;;
  when (Z.land sstatus (SSTATUS_SPP pf) =? 0)
       (panic "kerneltrap: not from supervisor mode") ;;
  ie <- intr_get ;;
  when (truthy ie) (panic "kerneltrap: interrupts enabled") ;;
  which_dev <- devintr ;;
  when (which_dev =? 0)
       (printf "scause %p (%s)\n" [PInt scause; PStr (scause_desc scause)] ;;
        pc <- r_sepc ;; a <- r_stval ;;
        printf "sepc=%p stval=%p\n" [PInt pc; PInt a] ;;
        panic "kerneltrap") ;;
  hp <- gets has_proc ;;
  st <- p_get state ;;
  when ((which_dev =? 2) && hp &&
        match st with RUNNING => true | _ => false end) yield ;;
  w_sepc sepc ;;
  w_sstatus sstatus.

End Trap.

(** ** Properties of runs *)

Section Judgement.

Context {W : Type}.

(** A run keeps [Inv] on the state, logs only calls that satisfy [Ok], and
    stops only for a reason in [Why]. *)
Variables (Inv : machine W -> Prop) (Ok : event -> machine W -> Prop)
          (Why : stop -> Prop).

Definition log_ok (l : log W) : Prop := Forall (fun em => Ok (fst em) (snd em)) l.

Definition outcome_ok {A} (o : outcome W A) : Prop :=
  Inv (final o) /\ log_ok (log_of o) /\
  match o with Stop r _ _ => Why r | Ret _ _ _ => True end.

Definition sat {A} (c : M W A) : Prop := forall m, Inv m -> outcome_ok (c m).

End Judgement.

Section Vocabulary.

Context {W : Type} (pf : platform) (co : collab W).

Definition anything : machine W -> Prop := fun _ => True.
Definition any_call : event -> machine W -> Prop := fun _ _ => True.
Definition any_stop : stop -> Prop := fun _ => True.

(** A program that never makes a call of the kind [f]. *)
Definition never {A} (f : event -> bool) (c : M W A) : Prop :=
  sat anything (fun e _ => f e = false) any_stop c.

(** The saved program counter of the current process. *)
Definition saved_pc (m : machine W) : Z := epc (tf (curproc m)).

(** A program that leaves the saved program counter at [v], and makes its
    calls with it at [v]. *)
Definition keeps_pc (v : Z) {A} (c : M W A) : Prop :=
  sat (fun m => saved_pc m = v) (fun _ m => saved_pc m = v) any_stop c.

(** *** The timer tick *)

Definition watchdog_expired (m : machine W) : bool :=
  truthy (watchdog_time m) && (elapsed m >? wrap32 (watchdog_time m)).

(** The state a tick that passes the watchdog check leaves. *)
Definition ticked (m : machine W) : machine W :=
  let m1 := set_ticks (wrap32 (ticks m + 1)) m in
  set_world (wakeup_c co (world m1)) m1.

(** *** The device interrupt router *)

(** The two encodings [devintr] recognises, as it tests them. *)
Definition is_external (c : Z) : bool :=
  truthy (Z.land c INTR_MASK) && (Z.land c 0xff =? 9).
Definition is_timer (c : Z) : bool := c =? 0x8000000000000001.

(** What the controller hands out in state [m], and the state after. *)
Definition claimed (m : machine W) : Z := fst (plic_claim_c co (world m)).
Definition after_claim (m : machine W) : machine W :=
  set_world (snd (plic_claim_c co (world m))) m.

(** The service routine the claimed identifier selects, lines 247-259. *)
Definition service (irq : Z) : M W unit :=
  if irq =? UART0_IRQ pf then uartintr co
  else if (irq =? VIRTIO0_IRQ pf) || (irq =? VIRTIO1_IRQ pf) then
    virtio_disk_intr co (irq - VIRTIO0_IRQ pf)
  else ret tt.

(** Acknowledging the software interrupt, line 278. *)
Definition acked (m : machine W) : machine W :=
  set_sip (Z.land (sip m) (wrap64 (Z.lnot 2))) m.

(** [n] timer events handled on core 0, none of which halts; between two
    events anything but the counter may change. *)
Inductive tick_run : nat -> machine W -> machine W -> Prop :=
| tick_run_done m : tick_run O m m
| tick_run_event n m m1 l m2 m3 :
    is_timer (scause m) = true -> tp m = 0 ->
    devintr pf co m = Ret 2 m1 l ->
    ticks m2 = ticks m1 ->
    tick_run n m2 m3 ->
    tick_run (S n) m m3.

(** *** The nested kernel trap *)

(** The two conditions [kerneltrap] requires at entry. *)
Definition from_supervisor (m : machine W) : bool :=
  negb (Z.land (sstatus m) (SSTATUS_SPP pf) =? 0).
Definition intr_enabled (m : machine W) : bool :=
  truthy (Z.land (sstatus m) (SSTATUS_SIE pf)).

(** Lines 199-213, what [kerneltrap] does once its entry checks passed,
    with the registers it read at entry. *)
Definition kerneltrap_body (sepc sstatus scause : Z) : M W unit :=
  which_dev <- devintr pf co ;;
  when (which_dev =? 0)
       (printf "scause %p (%s)\n" [PInt scause; PStr (scause_desc scause)] ;;
        pc <- r_sepc ;; a <- r_stval ;;
        printf "sepc=%p stval=%p\n" [PInt pc; PInt a] ;;
        panic "kerneltrap") ;;
  hp <- gets has_proc ;;
  st <- p_get state ;;
  when ((which_dev =? 2) && hp &&
        match st with RUNNING => true | _ => false end) (yield co) ;;
  w_sepc sepc ;;
  w_sstatus sstatus.

(** *** The trap from user space *)

(** The entry check of line 82, and the three page-fault causes. *)
Definition from_user (m : machine W) : bool :=
  negb (truthy (Z.land (sstatus m) (SSTATUS_SPP pf))).
Definition is_page_fault (c : Z) : bool :=
  (c =? 0xf) || (c =? 0xd) || (c =? 0xc).

(** The state after lines 82-92: the kernel's vector installed, the user
    program counter saved. *)
Definition entered (m : machine W) : machine W :=
  let m1 := set_stvec (kernelvec pf) m in
  set_curproc (set_tf (set_epc (sepc m1) (tf (curproc m1))) (curproc m1)) m1.

(** The state [syscall] is called in, lines 105-109. *)
Definition at_syscall (m : machine W) : machine W :=
  let m1 := entered m in
  let m2 := set_curproc (set_tf (set_epc (wrap64 (saved_pc m1 + 4))
                                         (tf (curproc m1))) (curproc m1)) m1 in
  set_sstatus (Z.lor (sstatus m2) (SSTATUS_SIE pf)) m2.

(** What lines 113-120 do on a page-fault cause. *)
Definition dispatch_page_fault (scause : Z) : M W Z :=
  a <- r_stval ;; pc <- r_sepc ;;
  _ <- handle_page_fault pf co scause a pc ;;
  ret 0.

(** What lines 121-130 do on any cause left. *)
Definition dispatch_devintr : M W Z :=
  d <- devintr pf co ;;
  (if truthy d then ret tt
   else
     c <- r_scause ;; c' <- r_scause ;; i <- p_get pid ;;
     printf "usertrap(): unexpected scause %p (%s) pid=%d\n"
            [PInt c; PStr (scause_desc c'); PInt i] ;;
     pc <- r_sepc ;; a <- r_stval ;;
     printf "            sepc=%p stval=%p\n" [PInt pc; PInt a] ;;
     p_set (set_killed 1)) ;;
  ret d.

(** Lines 96-130, the dispatch on the cause, giving [which_dev]. *)
Definition usertrap_dispatch (scause : Z) : M W Z :=
  if scause =? 8 then
    k <- p_get killed ;;
    when (truthy k) (exit (-1)) ;;
    e <- p_get (fun p => epc (tf p)) ;; tf_set (set_epc (wrap64 (e + 4))) ;;
    intr_on pf ;;
    syscall co ;;
    ret 0
  else if (scause =? 0xf) || (scause =? 0xd) then dispatch_page_fault scause
  else if scause =? 0xc then dispatch_page_fault scause
  else dispatch_devintr.

(** Lines 132-139, after the dispatch. *)
Definition usertrap_finish (which_dev : Z) : M W unit :=
  k <- p_get killed ;;
  when (truthy k) (exit (-1)) ;;
  when (which_dev =? 2) (yield co) ;;
  usertrapret pf.

(** Lines 41-71 of [handle_page_fault], from the allocator's answer on. *)
Definition page_fault_outcome (p : proc) (scause stval sepc flags : Z) : M W Z :=
  let addr := PGROUNDDOWN stval in
  release vma_lock ;;
  if flags <? 0 then
    (if flags =? ENOVMA pf then
       printf "Could not find VMA associated with addr=%p\n" [PInt addr]
     else if flags =? ENOMEM pf then
       printf "No more memory could be allocated from the kernel\n" []
     else if flags =? ENOFILE pf then
       printf "Could not read file associated with memory area\n" []
     else if flags =? EMAPFAILED pf then
       printf "mappages failed for an unknown reason\n" []
     else if flags =? EBADPERM pf then
       printf "Bad permission addr=%p, scause=%p\n" [PInt addr; PInt scause]
     else ret tt) ;;
    proc_vmprint ;;
    printf "unrecoverable page fault by pid=%d at sepc=%p stval=%p scause=%x\n"
           [PInt (pid p); PInt sepc; PInt stval; PInt scause] ;;
    p_set (set_killed 1) ;;
    ret (-1)
  else ret 0.

(** The allocator's answer to the fault in state [m]. *)
Definition allocated (scause stval : Z) (m : machine W) : Z * W :=
  do_allocate_c co (curproc m) (PGROUNDDOWN stval) scause (world m).

End Vocabulary.

Arguments anything {W} _.
Arguments any_call {W} _ _.

(** ** A concrete machine

    The constants of xv6 on qemu's virt board, collaborators that do nothing,
    a world that is the identifier the interrupt controller has pending, and
    a process trapped from user mode. *)

Module Sample.

Definition xv6 : platform := {|
  SSTATUS_SPP := 256;
  SSTATUS_SPIE := 32;
  SSTATUS_SIE := 2;
  TRAMPOLINE := 2 ^ 38 - 4096;
  TRAPFRAME := 2 ^ 38 - 8192;
  trampoline := 0x80007000;
  uservec := 0x80007000;
  userret := 0x80007090;
  kernelvec := 0x80005a70;
  usertrap_addr := 0x80001c9a;
  MAKE_SATP := fun pt => Z.lor (Z.shiftl 8 60) (Z.shiftr pt 12);
  UART0_IRQ := 10;
  VIRTIO0_IRQ := 1;
  VIRTIO1_IRQ := 2;
  ENOVMA := -1;
  ENOMEM := -2;
  ENOFILE := -3;
  EMAPFAILED := -4;
  EBADPERM := -5 |}.

Definition quiet : collab Z := {|
  syscall_c := fun m => m;
  yield_c := fun m => m;
  do_allocate_c := fun _ _ _ w => (0, w);
  plic_claim_c := fun w => (w, 0);
  plic_complete_c := fun _ w => w;
  uartintr_c := fun w => w;
  virtio_disk_intr_c := fun _ w => w;
  wakeup_c := fun w => w |}.

Definition frame0 : trapframe := mk_trapframe 0 0 0 0 0.

Definition init : proc := mk_proc 1 "init" 0 frame0 0x87f6e000 0x3fffffe000 RUNNING.

(** A trap taken in user mode (SPP clear, SIE clear) on core [hart]. *)
Definition user_trap (cause addr pc hart : Z) (p : proc) (irq : Z) : machine Z :=
  mk_machine 32 cause addr pc 0 2 0 hart true p 100 90 0 irq.

(** A trap taken in the kernel with status [status]. *)
Definition kernel_trap (status cause hart : Z) (irq : Z) : machine Z :=
  mk_machine status cause 0 0x80001000 0 2 0 hart true init 100 90 0 irq.

(** A timer tick on core 0 with the given counter and watchdog state. *)
Definition tick (t value threshold : Z) : machine Z :=
  mk_machine 256 0x8000000000000001 0 0x80001000 0 2 0 0 true init
             t value threshold 0.

End Sample.

(** ** Further vocabulary *)

Definition is_yield (e : event) : bool :=
  match e with Call_yield => true | _ => false end.
Definition is_usertrapret (e : event) : bool :=
  match e with Call_usertrapret => true | _ => false end.
Definition is_lock_call (e : event) : bool :=
  match e with Call_acquire _ | Call_release _ => true | _ => false end.

Section Endings.

Context {W : Type}.

(** Whether a run comes back to its caller. *)
Definition returns {A} (o : outcome W A) : bool :=
  match o with Ret _ _ _ => true | Stop _ _ _ => false end.

(** What holds of the state whenever the program comes back. *)
Definition ensures {A} (Q : machine W -> Prop) (c : M W A) : Prop :=
  forall m a m' l, c m = Ret a m' l -> Q m'.

(** The registers of the trap and the process are the same in both states. *)
Definition same_context (m m' : machine W) : Prop :=
  sstatus m' = sstatus m /\ scause m' = scause m /\ stval m' = stval m /\
  sepc m' = sepc m /\ stvec m' = stvec m /\ satp m' = satp m /\
  tp m' = tp m /\ has_proc m' = has_proc m /\ curproc m' = curproc m /\
  watchdog_value m' = watchdog_value m /\ watchdog_time m' = watchdog_time m.

End Endings.

Section UserReturn.

Context {W : Type} (pf : platform).

(** The two addresses in the trampoline page, lines 154 and 181. *)
Definition uservec_va : Z := wrap64 (TRAMPOLINE pf + (uservec pf - trampoline pf)).
Definition userret_va : Z := wrap64 (TRAMPOLINE pf + (userret pf - trampoline pf)).

(** The status [usertrapret] writes, lines 151 and 167-170. *)
Definition user_status (s : Z) : Z :=
  Z.lor (Z.land (Z.land s (wrap64 (Z.lnot (SSTATUS_SIE pf))))
                (wrap64 (Z.lnot (SSTATUS_SPP pf))))
        (SSTATUS_SPIE pf).

(** The trap frame [usertrapret] leaves, lines 158-161. *)
Definition resume_frame (m : machine W) : trapframe :=
  mk_trapframe (satp m) (wrap64 (kstack (curproc m) + PGSIZE))
               (usertrap_addr pf) (epc (tf (curproc m))) (tp m).

(** The state [usertrapret] jumps to user space in. *)
Definition resumed (m : machine W) : machine W :=
  set_sepc (epc (tf (curproc m)))
    (set_sstatus (user_status (sstatus m))
       (set_curproc (set_tf (resume_frame m) (curproc m))
          (set_stvec uservec_va m))).

(** The jump itself, line 182. *)
Definition user_jump (m : machine W) : stop :=
  UserRet userret_va (TRAPFRAME pf) (MAKE_SATP pf (pagetable (curproc m))).

(** The previous-interrupt-enable mask shares no bit with the previous-
    privilege mask nor with the interrupt-enable mask. *)
Definition status_masks : Prop :=
  Z.land (SSTATUS_SPIE pf) (SSTATUS_SPP pf) = 0 /\
  Z.land (SSTATUS_SPIE pf) (SSTATUS_SIE pf) = 0.

(** The ways [usertrap] can end. *)
Inductive usertrap_end : stop -> Prop :=
| end_not_user : usertrap_end (Panic "usertrap: not from user mode")
| end_watchdog : usertrap_end (Panic "watchdog !!!")
| end_no_proc : usertrap_end NullProc
| end_exit : usertrap_end (Exit (-1))
| end_user a1 : usertrap_end (UserRet userret_va (TRAPFRAME pf) a1).

(** The state an unexpected cause leaves: the process marked killed. *)
Definition killed_state (m : machine W) : machine W :=
  set_curproc (set_killed 1 (curproc m)) m.

End UserReturn.

(** The labels [scause_desc] can give. *)
Definition fallback_labels : list string :=
  [ "<reserved for platform use>";
    "<reserved for future standard use>";
    "<reserved for custom use>" ].

(** The cause number of a cause value, line 328. *)
Definition cause_code (c : Z) : Z := Z.land c (wrap64 (Z.lnot INTR_MASK)).

(** The calls of the service routine and of the completion that a claimed
    identifier leads to, lines 247-262. *)
Definition service_calls (pf : platform) (irq : Z) : list event :=
  (if irq =? UART0_IRQ pf then [Call_uartintr]
   else if (irq =? VIRTIO0_IRQ pf) || (irq =? VIRTIO1_IRQ pf) then
     [Call_virtio_disk_intr (irq - VIRTIO0_IRQ pf)]
   else []) ++
  (if truthy irq then [Call_plic_complete irq] else []).

(** A stop that is not the jump to user space. *)
Definition not_user_return (r : stop) : Prop :=
  match r with UserRet _ _ _ => False | _ => True end.

Definition is_running (st : procstate) : bool :=
  match st with RUNNING => true | _ => false end.

(** When [kerneltrap] gives up the processor: the entry checks pass, the
    cause is the timer interrupt, the tick is not stopped by the watchdog
    (which only core 0 consults), and a process is running on the core. *)
Definition kernel_yields {W : Type} (pf : platform) (m : machine W) : bool :=
  from_supervisor pf m && negb (intr_enabled pf m) &&
  is_timer (scause m) &&
  (negb (tp m =? 0) || negb (watchdog_expired m)) &&
  has_proc m && is_running (state (curproc m)).

(** The five calls every run of [handle_page_fault] starts with. *)
Definition page_fault_prologue {W : Type} (sc sv pc : Z) (m : machine W)
  : list event :=
  [ Call_handle_page_fault sc sv pc;
    Call_acquire vma_lock;
    Call_printf "handle_page_fault pid=%d (%s), scause=%p, stval=%p, sepc=%p\n"
      [PInt (pid (curproc m)); PStr (name (curproc m)); PInt sc; PInt sv;
       PInt pc];
    Call_do_allocate (pagetable (curproc m)) (PGROUNDDOWN sv) sc;
    Call_release vma_lock ].

(** Collaborators that fail: an allocator out of memory, and a system call
    that kills its caller. *)
Module Faulty.

Definition no_memory : collab Z := {|
  syscall_c := fun m => m;
  yield_c := fun m => m;
  do_allocate_c := fun _ _ _ w => (ENOMEM Sample.xv6, w);
  plic_claim_c := fun w => (w, 0);
  plic_complete_c := fun _ w => w;
  uartintr_c := fun w => w;
  virtio_disk_intr_c := fun _ w => w;
  wakeup_c := fun w => w |}.

Definition fatal_call : collab Z := {|
  syscall_c := fun m => set_curproc (set_killed 1 (curproc m)) m;
  yield_c := fun m => m;
  do_allocate_c := fun _ _ _ w => (0, w);
  plic_claim_c := fun w => (w, 0);
  plic_complete_c := fun _ w => w;
  uartintr_c := fun w => w;
  virtio_disk_intr_c := fun _ w => w;
  wakeup_c := fun w => w |}.

End Faulty.

(** * Properties *)

(** ** Machine words *)

Lemma wrap64_small z : 0 <= z < 2 ^ 64 -> wrap64 z = z.
Proof. intros H. unfold wrap64. now apply Z.mod_small. Qed.

Lemma wrap32_small z : 0 <= z < 2 ^ 32 -> wrap32 z = z.
Proof. intros H. unfold wrap32. now apply Z.mod_small. Qed.

Lemma wrap32_range z : 0 <= wrap32 z < 2 ^ 32.
Proof. unfold wrap32. apply Z.mod_pos_bound. reflexivity. Qed.

(** Masking with the interrupt bit leaves that bit alone. *)
Lemma land_INTR_MASK z :
  Z.land z INTR_MASK = if top_bit z then INTR_MASK else 0.
Proof.
  unfold top_bit. apply Z.bits_inj'. intros n Hn.
  rewrite Z.land_spec. change INTR_MASK with (2 ^ 63).
  rewrite Z.pow2_bits_eqb by lia.
  destruct (Z.eqb_spec 63 n) as [<- | Hne].
  - destruct (Z.testbit z 63);
      [ now rewrite Z.pow2_bits_eqb by lia | now rewrite Z.bits_0 ].
  - rewrite andb_false_r.
    destruct (Z.testbit z 63); [ | now rewrite Z.bits_0 ].
    rewrite Z.pow2_bits_eqb by lia. symmetry. now apply Z.eqb_neq.
Qed.

Lemma testbit_uint64_high a n :
  0 <= a < 2 ^ 64 -> 64 <= n -> Z.testbit a n = false.
Proof.
  intros Ha Hn. destruct (Z.eq_dec a 0) as [-> | Hz]; [ apply Z.bits_0 | ].
  apply Z.bits_above_log2; [ lia | ].
  assert (Z.log2 a < 64) by (apply Z.log2_lt_pow2; lia). lia.
Qed.

(** On a [uint64], [PGROUNDDOWN] is the start of the page. *)
Lemma PGROUNDDOWN_page a :
  0 <= a < 2 ^ 64 -> PGROUNDDOWN a = PGSIZE * (a / PGSIZE).
Proof.
  intros Ha. unfold PGROUNDDOWN.
  replace (wrap64 (Z.lnot (PGSIZE - 1))) with (Z.shiftl (Z.ones 52) 12)
    by reflexivity.
  replace (PGSIZE * (a / PGSIZE)) with (Z.shiftl (Z.shiftr a 12) 12)
    by (rewrite Z.shiftl_mul_pow2, Z.shiftr_div_pow2 by lia;
        change (2 ^ 12) with PGSIZE; lia).
  apply Z.bits_inj'. intros n Hn. rewrite Z.land_spec.
  destruct (Z.ltb_spec n 12) as [Hlt | Hge].
  - rewrite !Z.shiftl_spec_low by lia. apply andb_false_r.
  - rewrite !Z.shiftl_spec by lia. rewrite Z.shiftr_spec by lia.
    replace (n - 12 + 12) with n by lia.
    destruct (Z.ltb_spec (n - 12) 52) as [Hin | Hout].
    + rewrite Z.ones_spec_low by lia. apply andb_true_r.
    + rewrite Z.ones_spec_high by lia.
      rewrite (testbit_uint64_high a n) by lia. reflexivity.
Qed.

Lemma PGROUNDDOWN_bounds a :
  0 <= a < 2 ^ 64 ->
  PGROUNDDOWN a mod PGSIZE = 0 /\ PGROUNDDOWN a <= a < PGROUNDDOWN a + PGSIZE.
Proof.
  intros Ha. rewrite (PGROUNDDOWN_page a Ha). unfold PGSIZE. split.
  - rewrite Z.mul_comm. apply Z.mod_mul. lia.
  - pose proof (Z.mul_div_le a 4096). pose proof (Z.mul_succ_div_gt a 4096). lia.
Qed.

(** ** Runs *)

Section RunFacts.

Context {W : Type}.

Lemma prepend_nil {A} (o : outcome W A) : prepend [] o = o.
Proof. now destruct o. Qed.

Lemma prepend_prepend {A} l1 l2 (o : outcome W A) :
  prepend l1 (prepend l2 o) = prepend (l1 ++ l2) o.
Proof. destruct o; simpl; now rewrite app_assoc. Qed.

Lemma final_prepend {A} l (o : outcome W A) : final (prepend l o) = final o.
Proof. now destruct o. Qed.

Lemma log_of_prepend {A} l (o : outcome W A) :
  log_of (prepend l o) = l ++ log_of o.
Proof. now destruct o. Qed.

(** The equations of the monad, oriented for running a program from its
    first statement. *)
Lemma bind_ret {A B} (a : A) (k : A -> M W B) m : bind (ret a) k m = k a m.
Proof. unfold bind, ret. apply prepend_nil. Qed.

Lemma bind_gets {A B} (f : machine W -> A) (k : A -> M W B) m :
  bind (gets f) k m = k (f m) m.
Proof. unfold bind, gets. apply prepend_nil. Qed.

Lemma bind_modify {B} (f : machine W -> machine W) (k : unit -> M W B) m :
  bind (modify f) k m = k tt (f m).
Proof. unfold bind, modify. apply prepend_nil. Qed.

Lemma bind_call {B} e (k : unit -> M W B) m :
  bind (call e) k m = prepend [(e, m)] (k tt m).
Proof. reflexivity. Qed.

Lemma bind_halt {A B} r (k : A -> M W B) m : bind (halt r) k m = Stop r m [].
Proof. reflexivity. Qed.

Lemma bind_bind {A B C} (c : M W A) (k1 : A -> M W B) (k2 : B -> M W C) m :
  bind (bind c k1) k2 m = bind c (fun a => bind (k1 a) k2) m.
Proof.
  unfold bind. destruct (c m) as [a m1 l1 | r m1 l1]; [ | reflexivity ].
  destruct (k1 a m1) as [b m2 l2 | r m2 l2]; simpl; [ | reflexivity ].
  now rewrite prepend_prepend.
Qed.

Lemma bind_on_world {A B} (f : W -> A * W) (k : A -> M W B) m :
  bind (on_world f) k m = k (fst (f (world m))) (set_world (snd (f (world m))) m).
Proof.
  unfold bind, on_world. destruct (f (world m)) as [a w]. apply prepend_nil.
Qed.

Lemma run_on_world {A} (f : W -> A * W) m :
  on_world f m = Ret (fst (f (world m))) (set_world (snd (f (world m))) m) [].
Proof. unfold on_world. now destruct (f (world m)). Qed.

Lemma log_of_bind {A B} (c : M W A) (k : A -> M W B) m :
  log_of (bind c k m) =
  log_of (c m) ++
  match c m with Ret a m1 _ => log_of (k a m1) | Stop _ _ _ => [] end.
Proof.
  unfold bind. destruct (c m) as [a m1 l1 | r m1 l1]; simpl.
  - apply log_of_prepend.
  - now rewrite app_nil_r.
Qed.

Lemma calls_app (l1 l2 : log W) : calls (l1 ++ l2) = calls l1 ++ calls l2.
Proof. apply map_app. Qed.

Lemma filter_nil_existsb {A} (f : A -> bool) l :
  filter f l = [] -> existsb f l = false.
Proof.
  induction l as [ | a l IH ]; simpl; [ reflexivity | ].
  destruct (f a); [ discriminate | exact IH ].
Qed.

(** The judgement follows the program. *)
Section SatFacts.

Variables (Inv : machine W -> Prop) (Ok : event -> machine W -> Prop)
          (Why : stop -> Prop).

Lemma outcome_ok_prepend {A} l (o : outcome W A) :
  log_ok Ok l -> outcome_ok Inv Ok Why o -> outcome_ok Inv Ok Why (prepend l o).
Proof.
  unfold outcome_ok. intros Hl (Hi & Ho & Hs).
  rewrite final_prepend, log_of_prepend. repeat split; trivial.
  - now apply Forall_app.
  - now destruct o.
Qed.

Lemma log_ok_nil : log_ok Ok [].
Proof. constructor. Qed.

Lemma log_ok_one e m : Ok e m -> log_ok Ok [(e, m)].
Proof. intros H. constructor; [ exact H | constructor ]. Qed.

Lemma sat_ret {A} (a : A) : sat Inv Ok Why (ret a).
Proof. intros m Hm. split; [ exact Hm | split; [ apply log_ok_nil | exact I ] ]. Qed.

Lemma sat_gets {A} (f : machine W -> A) : sat Inv Ok Why (gets f).
Proof. intros m Hm. split; [ exact Hm | split; [ apply log_ok_nil | exact I ] ]. Qed.

Lemma sat_modify f : (forall m, Inv m -> Inv (f m)) -> sat Inv Ok Why (modify f).
Proof.
  intros Hf m Hm. split; [ now apply Hf | split; [ apply log_ok_nil | exact I ] ].
Qed.

Lemma sat_call e : (forall m, Inv m -> Ok e m) -> sat Inv Ok Why (call e).
Proof.
  intros He m Hm.
  split; [ exact Hm | split; [ apply log_ok_one; now apply He | exact I ] ].
Qed.

Lemma sat_halt {A} r : Why r -> sat Inv Ok Why (@halt W A r).
Proof. intros Hr m Hm. split; [ exact Hm | split; [ apply log_ok_nil | exact Hr ] ]. Qed.

Lemma sat_on_world {A} (f : W -> A * W) :
  (forall m w, Inv m -> Inv (set_world w m)) -> sat Inv Ok Why (on_world f).
Proof.
  intros Hf m Hm. rewrite run_on_world.
  split; [ now apply Hf | split; [ apply log_ok_nil | exact I ] ].
Qed.

Lemma sat_bind {A B} (c : M W A) (k : A -> M W B) :
  sat Inv Ok Why c -> (forall a, sat Inv Ok Why (k a)) ->
  sat Inv Ok Why (bind c k).
Proof.
  intros Hc Hk m Hm. unfold bind.
  destruct (Hc m Hm) as (Hi & Hl & Hs).
  destruct (c m) as [a m1 l1 | r m1 l1]; simpl in *.
  - apply outcome_ok_prepend; trivial. now apply Hk.
  - repeat split; trivial.
Qed.

Lemma sat_bind_ret {A B} (a : A) (k : A -> M W B) :
  sat Inv Ok Why (k a) -> sat Inv Ok Why (bind (ret a) k).
Proof. intros Hk m Hm. rewrite bind_ret. now apply Hk. Qed.

Lemma sat_if {A} (b : bool) (c1 c2 : M W A) :
  sat Inv Ok Why c1 -> sat Inv Ok Why c2 ->
  sat Inv Ok Why (if b then c1 else c2).
Proof. now destruct b. Qed.

Lemma sat_when (b : bool) (c : M W unit) :
  sat Inv Ok Why c -> sat Inv Ok Why (when b c).
Proof. intros Hc. unfold when. apply sat_if; [ trivial | apply sat_ret ]. Qed.

End SatFacts.

Lemma log_ok_never f (l : log W) :
  log_ok (fun e _ => f e = false) l -> filter f (calls l) = [].
Proof.
  unfold log_ok, calls. induction 1 as [ | [e m] l He Hl IH ]; simpl in *.
  - reflexivity.
  - now rewrite He.
Qed.

Lemma never_filter {A} f (c : M W A) m :
  never f c -> filter f (calls (log_of (c m))) = [].
Proof. intros H. apply log_ok_never. now apply (H m I). Qed.

Lemma never_invoked {A} f (c : M W A) m : never f c -> invoked f (c m) = false.
Proof. intros H. apply filter_nil_existsb. now apply never_filter. Qed.

End RunFacts.

(** Running a program from its first statement. *)
Ltac run_step :=
  first [ rewrite bind_bind | rewrite bind_ret | rewrite bind_gets
        | rewrite bind_modify | rewrite bind_call | rewrite bind_halt
        | rewrite bind_on_world ].

Ltac run := repeat run_step; cbv beta iota.

(** Down to the statements of the monad. *)
Ltac unfold_trap :=
  unfold usertrap, kerneltrap, usertrapret, devintr, clockintr,
    handle_page_fault, do_allocate, plic_claim, plic_complete, uartintr,
    virtio_disk_intr, wakeup_ticks, syscall, yield, acquire, release, printf,
    proc_vmprint, intr_on, intr_off, intr_get, cpuid, deref_myproc, tf_set,
    p_get, p_set, panic, exit, r_sstatus, r_scause, r_stval, r_sepc, r_sip,
    r_satp, r_tp, w_sstatus, w_sepc, w_stvec, w_sip.

(** Splitting a [sat] goal along the program. *)
Ltac sat_split :=
  lazymatch goal with
  | |- sat _ _ _ (bind (ret _) _) => apply sat_bind_ret; cbv beta; sat_split
  | |- sat _ _ _ (bind _ _) => apply sat_bind; [ sat_split | intro; sat_split ]
  | |- sat _ _ _ (ret _) => apply sat_ret
  | |- sat _ _ _ (gets _) => apply sat_gets
  | |- sat _ _ _ (when false _) => apply sat_ret
  | |- sat _ _ _ (when _ _) => apply sat_when; sat_split
  | |- sat _ _ _ (if _ then _ else _) => apply sat_if; sat_split
  | |- sat _ _ _ (halt _) => apply sat_halt
  | |- sat _ _ _ (call _) => apply sat_call
  | |- sat _ _ _ (modify _) => apply sat_modify
  | |- sat _ _ _ (on_world _) => apply sat_on_world
  | |- _ => idtac
  end.

Ltac sat_auto :=
  unfold_trap; sat_split;
  unfold anything, any_call, any_stop; intros; try reflexivity; auto.

(** ** The description table *)

(** C9, as the table has it: the interrupt bit is bit 63, so it is
    0x8000000000000009 that reads "supervisor external interrupt";
    0x2000000000000009 has the bit clear and a cause number above 63, and
    reads "<reserved for future standard use>", as does exception cause 40. *)
Theorem scause_desc_labels :
  scause_desc 0x8000000000000009 = "supervisor external interrupt" /\
  scause_desc 0x2000000000000009 = "<reserved for future standard use>" /\
  scause_desc 40 = "<reserved for future standard use>".
Proof. repeat split; vm_compute; reflexivity. Qed.

(** C9 as stated fails: 0x2000000000000009 is not described as the
    supervisor external interrupt. *)
Lemma scause_desc_0x2000000000000009 :
  scause_desc 0x2000000000000009 <> "supervisor external interrupt".
Proof. vm_compute. discriminate. Qed.

(** Every interrupt cause within the table is described by its entry, and
    every interrupt cause beyond it is left to the platform. *)
Lemma scause_desc_interrupt c :
  top_bit c = true ->
  scause_desc c =
    let code := Z.land c (wrap64 (Z.lnot INTR_MASK)) in
    if code <? 16 then index intr_desc code else "<reserved for platform use>".
Proof.
  intros H. unfold scause_desc. rewrite land_INTR_MASK, H. reflexivity.
Qed.

(** ** The timer tick *)

Section ClockFacts.

Context {W : Type} (pf : platform) (co : collab W).

(** [clockintr], run. *)
Lemma clockintr_run m :
  clockintr co m =
  if watchdog_expired m then
    Stop (Panic "watchdog !!!") m
         [(Call_clockintr, m); (Call_acquire watchdog_lock, m);
          (Call_acquire tickslock, m)]
  else
    Ret tt (ticked co m)
        [(Call_clockintr, m); (Call_acquire watchdog_lock, m);
         (Call_acquire tickslock, m);
         (Call_wakeup_ticks, set_ticks (wrap32 (ticks m + 1)) m);
         (Call_release tickslock, ticked co m);
         (Call_release watchdog_lock, ticked co m)].
Proof.
  unfold clockintr, acquire, release, wakeup_ticks, panic.
  run. fold (watchdog_expired m).
  destruct (watchdog_expired m); unfold when; run; reflexivity.
Qed.

End ClockFacts.

(** ** The device interrupt router *)

Section DevintrFacts.

Context {W : Type} (pf : platform) (co : collab W).

Lemma is_external_bits c :
  is_external c = top_bit c && (Z.land c 0xff =? 9).
Proof.
  unfold is_external, truthy. rewrite land_INTR_MASK.
  now destruct (top_bit c).
Qed.

Lemma is_timer_not_external c : is_timer c = true -> is_external c = false.
Proof.
  unfold is_timer. intros H. apply Z.eqb_eq in H. now subst c.
Qed.

Lemma devintr_external m :
  is_external (scause m) = true ->
  devintr pf co m =
  prepend [(Call_devintr, m); (Call_plic_claim, m)]
    ((service pf co (claimed co m) ;;
      when (truthy (claimed co m)) (plic_complete co (claimed co m)) ;;
      ret 1) (after_claim co m)).
Proof.
  intros H. unfold devintr, plic_claim, r_scause. run.
  fold (is_external (scause m)). rewrite H. run.
  rewrite prepend_prepend. reflexivity.
Qed.

Lemma devintr_timer m :
  is_timer (scause m) = true ->
  devintr pf co m =
  prepend [(Call_devintr, m)]
    (if tp m =? 0 then
       match clockintr co m with
       | Ret _ m1 l => Ret 2 (acked m1) l
       | Stop r m1 l => Stop r m1 l
       end
     else Ret 2 (acked m) []).
Proof.
  intros H. unfold devintr, r_scause, cpuid, r_tp, r_sip, w_sip. run.
  fold (is_external (scause m)). rewrite (is_timer_not_external _ H).
  cbv iota. fold (is_timer (scause m)). rewrite H. run.
  f_equal. destruct (tp m =? 0); unfold when.
  - unfold bind at 1.
    destruct (clockintr co m) as [[] m1 l | r m1 l]; [ | reflexivity ].
    run. unfold ret. simpl. now rewrite app_nil_r.
  - run. reflexivity.
Qed.

Lemma devintr_other m :
  is_external (scause m) = false -> is_timer (scause m) = false ->
  devintr pf co m = Ret 0 m [(Call_devintr, m)].
Proof.
  intros H1 H2. unfold devintr, r_scause. run.
  fold (is_external (scause m)). rewrite H1. cbv iota.
  fold (is_timer (scause m)). rewrite H2. reflexivity.
Qed.

(** [devintr] stops only on the watchdog. *)
Lemma devintr_stops :
  sat anything any_call (fun r => r = Panic "watchdog !!!") (devintr pf co).
Proof. sat_auto. Qed.

(** C7: on the external-interrupt path, a claimed identifier of 0 (no device
    has identifier 0) gives a run whose only calls are the entry and the
    claim, so no service routine and no completion, and the result is 1;
    a non-zero identifier is completed, whichever branch it took, and the
    result is 1. *)
Theorem devintr_claim (m : machine W) :
  is_external (scause m) = true ->
  (claimed co m = 0 ->
   UART0_IRQ pf <> 0 -> VIRTIO0_IRQ pf <> 0 -> VIRTIO1_IRQ pf <> 0 ->
   devintr pf co m
   = Ret 1 (after_claim co m) [(Call_devintr, m); (Call_plic_claim, m)] /\
   invoked is_device_isr (devintr pf co m) = false /\
   invoked is_plic_complete (devintr pf co m) = false) /\
  (claimed co m <> 0 ->
   exists m' l, devintr pf co m = Ret 1 m' l /\
                In (Call_plic_complete (claimed co m)) (calls l)).
Proof.
  intros Hext. rewrite (devintr_external m Hext). split.
  - intros H0 Hu Hv0 Hv1. unfold service. rewrite H0.
    apply not_eq_sym, Z.eqb_neq in Hu, Hv0, Hv1. rewrite Hu, Hv0, Hv1.
    simpl. unfold when. run. repeat split.
  - intros Hne. apply Z.eqb_neq in Hne. unfold truthy. rewrite Hne.
    unfold service, when, plic_complete, uartintr, virtio_disk_intr. simpl negb.
    destruct (claimed co m =? UART0_IRQ pf);
      [ | destruct ((claimed co m =? VIRTIO0_IRQ pf)
                    || (claimed co m =? VIRTIO1_IRQ pf)) ];
      run; simpl; eexists _, _; (split; [ reflexivity | simpl; auto 6 ]).
Qed.

(** C10: the external-interrupt path is taken on the interrupt bit and the
    low byte alone: every cause with bit 63 set and low byte 9 is claimed
    from the controller and answered with 1. *)
Theorem devintr_low_byte (m : machine W) :
  top_bit (scause m) = true -> Z.land (scause m) 0xff = 9 ->
  exists m' l,
    devintr pf co m
    = Ret 1 m' ((Call_devintr, m) :: (Call_plic_claim, m) :: l).
Proof.
  intros Hb Hl.
  assert (Hext : is_external (scause m) = true)
    by (rewrite is_external_bits, Hb, Hl; reflexivity).
  rewrite (devintr_external m Hext).
  unfold service, when, plic_complete, uartintr, virtio_disk_intr.
  destruct (claimed co m =? UART0_IRQ pf);
    [ | destruct ((claimed co m =? VIRTIO0_IRQ pf)
                  || (claimed co m =? VIRTIO1_IRQ pf)) ];
    destruct (truthy (claimed co m));
    run; simpl; eexists _, _; reflexivity.
Qed.

End DevintrFacts.

Lemma devintr_claim_witness :
  (devintr Sample.xv6 Sample.quiet (Sample.kernel_trap 256 0x8000000000000009 0 0)
   = Ret 1 (Sample.kernel_trap 256 0x8000000000000009 0 0)
       [(Call_devintr, Sample.kernel_trap 256 0x8000000000000009 0 0);
        (Call_plic_claim, Sample.kernel_trap 256 0x8000000000000009 0 0)] /\
   invoked is_device_isr
     (devintr Sample.xv6 Sample.quiet
        (Sample.kernel_trap 256 0x8000000000000009 0 0)) = false /\
   invoked is_plic_complete
     (devintr Sample.xv6 Sample.quiet
        (Sample.kernel_trap 256 0x8000000000000009 0 0)) = false) /\
  (exists m' l,
     devintr Sample.xv6 Sample.quiet (Sample.kernel_trap 256 0x8000000000000009 0 7)
     = Ret 1 m' l /\
     In (Call_plic_complete 7) (calls l)).
Proof.
  split.
  - apply (proj1 (devintr_claim Sample.xv6 Sample.quiet
                    (Sample.kernel_trap 256 0x8000000000000009 0 0)
                    eq_refl));
      [ reflexivity | discriminate | discriminate | discriminate ].
  - apply (proj2 (devintr_claim Sample.xv6 Sample.quiet
                    (Sample.kernel_trap 256 0x8000000000000009 0 7)
                    eq_refl)).
    discriminate.
Defined.

Lemma devintr_low_byte_witness :
  Z.land 0x8000000000000109 0x7fffffffffffffff <> 9 /\
  exists m' l,
    devintr Sample.xv6 Sample.quiet (Sample.kernel_trap 256 0x8000000000000109 0 10)
    = Ret 1 m'
        ((Call_devintr, Sample.kernel_trap 256 0x8000000000000109 0 10)
         :: (Call_plic_claim, Sample.kernel_trap 256 0x8000000000000109 0 10)
         :: l).
Proof.
  split; [ discriminate | ].
  apply (devintr_low_byte Sample.xv6 Sample.quiet
           (Sample.kernel_trap 256 0x8000000000000109 0 10));
    reflexivity.
Defined.

(** ** The watchdog and the tick counter *)

Section TickFacts.

Context {W : Type} (pf : platform) (co : collab W).

(** C4: with a non-zero threshold that the elapsed ticks exceed, [clockintr]
    panics and leaves the state, the counter included, as it found it; with
    a zero threshold it returns, whatever the elapsed count, and so does
    [devintr] on the timer interrupt. *)
Theorem clockintr_watchdog (m : machine W) :
  (watchdog_time m <> 0 -> elapsed m > wrap32 (watchdog_time m) ->
   (exists l, clockintr co m = Stop (Panic "watchdog !!!") m l) /\
   ticks (final (clockintr co m)) = ticks m) /\
  (watchdog_time m = 0 ->
   (exists l, clockintr co m = Ret tt (ticked co m) l) /\
   (is_timer (scause m) = true ->
    exists m' l, devintr pf co m = Ret 2 m' l)).
Proof.
  split.
  - rewrite clockintr_run. unfold watchdog_expired, truthy.
    intros Hne Hgt. apply Z.eqb_neq in Hne. rewrite Hne.
    apply Z.gtb_gt in Hgt. rewrite Hgt. simpl. split; [ eexists | ]; reflexivity.
  - intros H0.
    assert (Hw : watchdog_expired m = false)
      by (unfold watchdog_expired; rewrite H0; reflexivity).
    split.
    + rewrite clockintr_run, Hw. eexists. reflexivity.
    + intros Ht. rewrite (devintr_timer pf co m Ht), clockintr_run, Hw.
      destruct (tp m =? 0); simpl; eexists _, _; reflexivity.
Qed.

Lemma devintr_tick_inv m m1 l :
  is_timer (scause m) = true -> tp m = 0 ->
  devintr pf co m = Ret 2 m1 l -> ticks m1 = wrap32 (ticks m + 1).
Proof.
  intros Ht Hc. rewrite (devintr_timer pf co m Ht).
  rewrite Hc, clockintr_run. simpl.
  destruct (watchdog_expired m); simpl; intros H; [ discriminate | ].
  injection H as <- _. reflexivity.
Qed.

Lemma tick_run_ticks n m m' :
  tick_run pf co n m m' -> 0 <= ticks m < 2 ^ 32 ->
  ticks m' = wrap32 (ticks m + Z.of_nat n).
Proof.
  induction 1 as [m | n m m1 l m2 m3 Ht Hc Hd Hs Hr IH]; intros Hm.
  - rewrite Z.add_0_r. symmetry. now apply wrap32_small.
  - pose proof (devintr_tick_inv _ _ _ Ht Hc Hd) as H1.
    rewrite IH by (rewrite Hs, H1; apply wrap32_range).
    rewrite Hs, H1. unfold wrap32. rewrite Zplus_mod_idemp_l.
    f_equal. lia.
Qed.

(** C8, as the code has it: the counter is a 32-bit [uint].  A tick that
    passes the watchdog check is handled to the end and sets the counter to
    its successor modulo 2^32; on another core [devintr] leaves it alone;
    after [n] tick events on core 0 it is the initial value plus [n] modulo
    2^32, which is the initial value plus [n] exactly, and not below the
    initial value, as long as that sum stays below 2^32. *)
Theorem tick_counter :
  (forall m, watchdog_expired m = false ->
     (exists l, clockintr co m = Ret tt (ticked co m) l) /\
     ticks (ticked co m) = wrap32 (ticks m + 1)) /\
  (forall m, is_timer (scause m) = true -> tp m = 0 ->
     watchdog_expired m = false ->
     exists l, devintr pf co m = Ret 2 (acked (ticked co m)) l) /\
  (forall m, is_timer (scause m) = true -> tp m <> 0 ->
     exists m1 l, devintr pf co m = Ret 2 m1 l /\ ticks m1 = ticks m) /\
  (forall n m m', tick_run pf co n m m' -> 0 <= ticks m < 2 ^ 32 ->
     ticks m' = wrap32 (ticks m + Z.of_nat n) /\
     (ticks m + Z.of_nat n < 2 ^ 32 ->
      ticks m' = ticks m + Z.of_nat n /\ ticks m <= ticks m')).
Proof.
  split; [ | split; [ | split ] ].
  - intros m Hw. rewrite clockintr_run, Hw. split; [ eexists | ]; reflexivity.
  - intros m Ht Hc Hw. rewrite (devintr_timer pf co m Ht).
    rewrite Hc, clockintr_run, Hw. simpl. eexists. reflexivity.
  - intros m Ht Hc. rewrite (devintr_timer pf co m Ht).
    apply Z.eqb_neq in Hc. rewrite Hc. simpl. eexists _, _. split; reflexivity.
  - intros n m m' Hr Hm. pose proof (tick_run_ticks _ _ _ Hr Hm) as H.
    split; [ exact H | ]. intros Hlt.
    rewrite wrap32_small in H by lia. lia.
Qed.

End TickFacts.

Lemma clockintr_watchdog_witness :
  ((exists l, clockintr Sample.quiet (Sample.tick 100 90 5)
              = Stop (Panic "watchdog !!!") (Sample.tick 100 90 5) l) /\
   ticks (final (clockintr Sample.quiet (Sample.tick 100 90 5))) = 100) /\
  ((exists l, clockintr Sample.quiet (Sample.tick 100 0 0)
              = Ret tt (Sample.tick 101 0 0) l) /\
   (exists m' l, devintr Sample.xv6 Sample.quiet (Sample.tick 100 0 0)
                 = Ret 2 m' l)).
Proof.
  split.
  - apply (proj1 (clockintr_watchdog Sample.xv6 Sample.quiet
                    (Sample.tick 100 90 5)));
      vm_compute; [ discriminate | reflexivity ].
  - destruct (proj2 (clockintr_watchdog Sample.xv6 Sample.quiet
                       (Sample.tick 100 0 0)) eq_refl) as (H1 & H2).
    split; [ exact H1 | apply H2; reflexivity ].
Defined.

Lemma tick_counter_witness :
  ((exists l, clockintr Sample.quiet (Sample.tick 100 0 0)
              = Ret tt (ticked Sample.quiet (Sample.tick 100 0 0)) l) /\
   ticks (ticked Sample.quiet (Sample.tick 100 0 0)) = 101) /\
  (exists l, devintr Sample.xv6 Sample.quiet (Sample.tick 100 0 0)
             = Ret 2 (acked (ticked Sample.quiet (Sample.tick 100 0 0))) l) /\
  (exists m1 l, devintr Sample.xv6 Sample.quiet
                  (Sample.kernel_trap 256 0x8000000000000001 1 0)
                = Ret 2 m1 l /\ ticks m1 = 100) /\
  (ticks (acked (Sample.tick 102 0 0)) = 102 /\
   100 <= ticks (acked (Sample.tick 102 0 0))).
Proof.
  pose proof (tick_counter Sample.xv6 Sample.quiet) as (H1 & H2 & H3 & H4).
  split; [ | split; [ | split ] ].
  - apply (H1 (Sample.tick 100 0 0)). reflexivity.
  - apply (H2 (Sample.tick 100 0 0)); reflexivity.
  - apply (H3 (Sample.kernel_trap 256 0x8000000000000001 1 0));
      [ reflexivity | discriminate ].
  - apply (H4 2%nat (Sample.tick 100 0 0) (acked (Sample.tick 102 0 0))).
    + apply (tick_run_event _ _ 1 (Sample.tick 100 0 0)
               (acked (Sample.tick 101 0 0))
               (log_of (devintr Sample.xv6 Sample.quiet (Sample.tick 100 0 0)))
               (Sample.tick 101 0 0));
        [ reflexivity | reflexivity | vm_compute; reflexivity | reflexivity | ].
      apply (tick_run_event _ _ 0 (Sample.tick 101 0 0)
               (acked (Sample.tick 102 0 0))
               (log_of (devintr Sample.xv6 Sample.quiet (Sample.tick 101 0 0)))
               (acked (Sample.tick 102 0 0)));
        [ reflexivity | reflexivity | vm_compute; reflexivity | reflexivity | ].
      apply tick_run_done.
    + vm_compute. split; [ discriminate | reflexivity ].
    + vm_compute. reflexivity.
Defined.

(** C8 as stated fails when the counter is at its last value: the tick is
    handled without a halt and the counter falls back to 0. *)
Lemma tick_counter_wraps :
  exists l,
    clockintr Sample.quiet (Sample.tick 4294967295 0 0)
    = Ret tt (Sample.tick 0 0 0) l /\
    ticks (Sample.tick 0 0 0) < ticks (Sample.tick 4294967295 0 0) /\
    ticks (Sample.tick 0 0 0) <> ticks (Sample.tick 4294967295 0 0) + 1.
Proof.
  eexists. split; [ vm_compute; reflexivity | ].
  split; [ reflexivity | discriminate ].
Qed.

(** ** The nested kernel trap *)

Section KerneltrapFacts.

Context {W : Type} (pf : platform) (co : collab W).

Lemma kerneltrap_run m :
  kerneltrap pf co m =
  if from_supervisor pf m then
    if intr_enabled pf m then Stop (Panic "kerneltrap: interrupts enabled") m []
    else kerneltrap_body pf co (sepc m) (sstatus m) (scause m) m
  else Stop (Panic "kerneltrap: not from supervisor mode") m [].
Proof.
  unfold kerneltrap, intr_get, r_sepc, r_sstatus, r_scause. run.
  unfold from_supervisor, intr_enabled.
  destruct (Z.land (sstatus m) (SSTATUS_SPP pf) =? 0); simpl negb; cbv iota;
    unfold when at 1, panic; run; [ reflexivity | ].
  destruct (truthy (Z.land (sstatus m) (SSTATUS_SIE pf)));
    [ change (truthy 1) with true | change (truthy 0) with false ];
    unfold when at 1; run; reflexivity.
Qed.

Lemma kerneltrap_body_stops pc st sc :
  sat anything any_call
      (fun r => r = Panic "watchdog !!!" \/ r = Panic "kerneltrap")
      (kerneltrap_body pf co pc st sc).
Proof. unfold kerneltrap_body. sat_auto. Qed.

Lemma kerneltrap_body_log pc st sc m :
  exists l, log_of (kerneltrap_body pf co pc st sc m) = (Call_devintr, m) :: l.
Proof.
  unfold kerneltrap_body, devintr. run. rewrite log_of_prepend.
  eexists. reflexivity.
Qed.

(** C6: when the previous privilege was user or interrupts are enabled,
    [kerneltrap] panics at once, in the state it was entered in and with an
    empty log, so before [devintr]; when the previous privilege was
    supervisor and interrupts are disabled, its first call is [devintr] and
    it can stop only on the watchdog or on an unrecognised cause, never on
    one of the two entry checks. *)
Theorem kerneltrap_entry (m : machine W) :
  (from_supervisor pf m = false \/ intr_enabled pf m = true ->
   kerneltrap pf co m =
     Stop (Panic (if from_supervisor pf m
                  then "kerneltrap: interrupts enabled"
                  else "kerneltrap: not from supervisor mode")) m [] /\
   invoked is_devintr (kerneltrap pf co m) = false) /\
  (from_supervisor pf m = true -> intr_enabled pf m = false ->
   (exists l, log_of (kerneltrap pf co m) = (Call_devintr, m) :: l) /\
   (forall r m' l, kerneltrap pf co m = Stop r m' l ->
      r = Panic "watchdog !!!" \/ r = Panic "kerneltrap")).
Proof.
  rewrite kerneltrap_run. split.
  - intros [H | H].
    + rewrite H. split; reflexivity.
    + rewrite H. destruct (from_supervisor pf m); split; reflexivity.
  - intros Hs Hi. rewrite Hs, Hi. split.
    + apply kerneltrap_body_log.
    + intros r m' l Hr.
      destruct (kerneltrap_body_stops (sepc m) (sstatus m) (scause m) m I)
        as (_ & _ & Hw).
      rewrite Hr in Hw. exact Hw.
Qed.

End KerneltrapFacts.

Lemma kerneltrap_entry_witness :
  (kerneltrap Sample.xv6 Sample.quiet (Sample.kernel_trap 0 0x8000000000000009 0 0)
   = Stop (Panic "kerneltrap: not from supervisor mode")
       (Sample.kernel_trap 0 0x8000000000000009 0 0) [] /\
   invoked is_devintr
     (kerneltrap Sample.xv6 Sample.quiet
        (Sample.kernel_trap 0 0x8000000000000009 0 0)) = false) /\
  ((exists l,
      log_of (kerneltrap Sample.xv6 Sample.quiet
                (Sample.kernel_trap 256 0x8000000000000009 0 0))
      = (Call_devintr, Sample.kernel_trap 256 0x8000000000000009 0 0) :: l) /\
   (forall r m' l,
      kerneltrap Sample.xv6 Sample.quiet
        (Sample.kernel_trap 256 0x8000000000000009 0 0) = Stop r m' l ->
      r = Panic "watchdog !!!" \/ r = Panic "kerneltrap")).
Proof.
  split.
  - apply (proj1 (kerneltrap_entry Sample.xv6 Sample.quiet
                    (Sample.kernel_trap 0 0x8000000000000009 0 0))).
    left. reflexivity.
  - apply (proj2 (kerneltrap_entry Sample.xv6 Sample.quiet
                    (Sample.kernel_trap 256 0x8000000000000009 0 0)));
      reflexivity.
Defined.

(** ** The trap from user space *)

Section UsertrapFacts.

Context {W : Type} (pf : platform) (co : collab W).

Lemma usertrap_run m :
  usertrap pf co m =
  if from_user pf m then
    if has_proc m then
      (which_dev <- usertrap_dispatch pf co (scause m) ;;
       usertrap_finish pf co which_dev) (entered pf m)
    else Stop NullProc (set_stvec (kernelvec pf) m) []
  else Stop (Panic "usertrap: not from user mode") m [].
Proof.
  unfold usertrap, r_sstatus, r_sepc, r_scause, w_stvec, deref_myproc, tf_set,
    p_set. run. unfold from_user.
  destruct (truthy (Z.land (sstatus m) (SSTATUS_SPP pf))); simpl negb; cbv iota;
    unfold when at 1, panic; run; [ reflexivity | ].
  change (has_proc (set_stvec (kernelvec pf) m)) with (has_proc m).
  destruct (has_proc m); run; reflexivity.
Qed.

Lemma handle_page_fault_run sc sv pc m :
  handle_page_fault pf co sc sv pc m =
  prepend
    [(Call_handle_page_fault sc sv pc, m);
     (Call_acquire vma_lock, m);
     (Call_printf "handle_page_fault pid=%d (%s), scause=%p, stval=%p, sepc=%p\n"
        [PInt (pid (curproc m)); PStr (name (curproc m)); PInt sc; PInt sv;
         PInt pc], m);
     (Call_do_allocate (pagetable (curproc m)) (PGROUNDDOWN sv) sc, m)]
    (page_fault_outcome pf (curproc m) sc sv pc (fst (allocated co sc sv m))
       (set_world (snd (allocated co sc sv m)) m)).
Proof.
  unfold handle_page_fault, do_allocate, acquire, printf. run.
  rewrite !prepend_prepend. reflexivity.
Qed.

Lemma usertrap_dispatch_page_fault c :
  is_page_fault c = true ->
  usertrap_dispatch pf co c = dispatch_page_fault pf co c.
Proof.
  unfold is_page_fault. intros H.
  apply orb_true_iff in H as [H | H]; [ apply orb_true_iff in H as [H | H] | ];
    apply Z.eqb_eq in H; subst c; reflexivity.
Qed.

Lemma usertrap_dispatch_interrupt c :
  top_bit c = true -> usertrap_dispatch pf co c = dispatch_devintr pf co.
Proof.
  intros H. unfold usertrap_dispatch.
  destruct (Z.eqb_spec c 8) as [-> | _]; [ discriminate | ].
  destruct (Z.eqb_spec c 0xf) as [-> | _]; [ discriminate | ].
  destruct (Z.eqb_spec c 0xd) as [-> | _]; [ discriminate | ].
  destruct (Z.eqb_spec c 0xc) as [-> | _]; [ discriminate | ].
  reflexivity.
Qed.

(** The calls each part can make. *)
Lemma usertrap_finish_never f d :
  f Call_usertrapret = false -> f Call_yield = false ->
  never f (usertrap_finish pf co d).
Proof. intros H1 H2. unfold never, usertrap_finish. sat_auto. Qed.

Lemma dispatch_devintr_never f :
  In f [is_syscall; is_handle_page_fault; is_do_allocate] ->
  never f (dispatch_devintr pf co).
Proof.
  unfold never, dispatch_devintr.
  intros [<- | [<- | [<- | []]]]; sat_auto.
Qed.

Lemma page_fault_outcome_never f p sc sv pc fl :
  (forall l, f (Call_release l) = false) ->
  (forall s a, f (Call_printf s a) = false) ->
  f Call_proc_vmprint = false ->
  never f (@page_fault_outcome W pf p sc sv pc fl).
Proof. intros H1 H2 H3. unfold never, page_fault_outcome. sat_auto. Qed.

Lemma handle_page_fault_keeps_pc v sc sv pc :
  keeps_pc v (handle_page_fault pf co sc sv pc).
Proof. unfold keeps_pc. sat_auto. Qed.

Lemma usertrap_finish_keeps_pc v d :
  d <> 2 -> keeps_pc v (usertrap_finish pf co d).
Proof.
  intros Hd. unfold keeps_pc, usertrap_finish.
  apply Z.eqb_neq in Hd. rewrite Hd. sat_auto.
Qed.

Lemma page_fault_path_keeps_pc v sc sv pc :
  keeps_pc v (_ <- handle_page_fault pf co sc sv pc ;;
              which_dev <- ret 0 ;; usertrap_finish pf co which_dev).
Proof.
  apply sat_bind; [ apply handle_page_fault_keeps_pc | intros _ ].
  apply sat_bind_ret. apply usertrap_finish_keeps_pc. discriminate.
Qed.

Lemma usertrap_interrupt_never f m :
  In f [is_syscall; is_handle_page_fault; is_do_allocate] ->
  top_bit (scause m) = true ->
  invoked f (usertrap pf co m) = false.
Proof.
  intros Hf Hb. rewrite usertrap_run.
  destruct (from_user pf m); [ | reflexivity ].
  destruct (has_proc m); [ | reflexivity ].
  rewrite (usertrap_dispatch_interrupt _ Hb).
  apply never_invoked. apply sat_bind.
  - now apply dispatch_devintr_never.
  - intros d. apply usertrap_finish_never;
      destruct Hf as [<- | [<- | [<- | []]]]; reflexivity.
Qed.

Lemma usertrap_syscall_run m :
  from_user pf m = true -> has_proc m = true ->
  scause m = 8 -> killed (curproc m) = 0 ->
  usertrap pf co m =
  prepend [(Call_syscall, at_syscall pf m)]
          (usertrap_finish pf co 0 (syscall_c co (at_syscall pf m))).
Proof.
  intros Hu Hp Hc Hk. rewrite usertrap_run, Hu, Hp, Hc.
  unfold usertrap_dispatch. change (8 =? 8) with true. cbv iota.
  unfold p_get, tf_set, p_set, intr_on, r_sstatus, w_sstatus, syscall. run.
  change (killed (curproc (entered pf m))) with (killed (curproc m)).
  rewrite Hk. change (truthy 0) with false. unfold when at 1. run.
  reflexivity.
Qed.

Lemma usertrap_page_fault_run m :
  from_user pf m = true -> has_proc m = true ->
  is_page_fault (scause m) = true ->
  usertrap pf co m =
  (_ <- handle_page_fault pf co (scause m) (stval m) (sepc m) ;;
   which_dev <- ret 0 ;; usertrap_finish pf co which_dev) (entered pf m).
Proof.
  intros Hu Hp Hc. rewrite usertrap_run, Hu, Hp.
  rewrite (usertrap_dispatch_page_fault _ Hc).
  unfold dispatch_page_fault, r_stval, r_sepc. run. reflexivity.
Qed.

Lemma handle_page_fault_calls sc sv pc m :
  filter is_do_allocate (calls (log_of (handle_page_fault pf co sc sv pc m)))
  = [Call_do_allocate (pagetable (curproc m)) (PGROUNDDOWN sv) sc] /\
  filter is_handle_page_fault
         (calls (log_of (handle_page_fault pf co sc sv pc m)))
  = [Call_handle_page_fault sc sv pc].
Proof.
  rewrite handle_page_fault_run, log_of_prepend, calls_app, !filter_app.
  rewrite !never_filter by (apply page_fault_outcome_never; reflexivity).
  split; reflexivity.
Qed.

(** C1: on a cause with the interrupt bit set, [usertrap] calls neither
    [handle_page_fault] (nor the allocator behind it) nor [syscall]; when
    the trap passes the entry checks, the first call is [devintr]. *)
Theorem usertrap_interrupt_cause (m : machine W) :
  top_bit (scause m) = true ->
  invoked is_handle_page_fault (usertrap pf co m) = false /\
  invoked is_do_allocate (usertrap pf co m) = false /\
  invoked is_syscall (usertrap pf co m) = false /\
  (from_user pf m = true -> has_proc m = true ->
   exists l, log_of (usertrap pf co m) = (Call_devintr, entered pf m) :: l).
Proof.
  intros Hb. repeat split; try (apply usertrap_interrupt_never; simpl; auto).
  intros Hu Hp. rewrite usertrap_run, Hu, Hp.
  rewrite (usertrap_dispatch_interrupt _ Hb).
  unfold dispatch_devintr, devintr. run. rewrite log_of_prepend.
  eexists. reflexivity.
Qed.

(** C2: on the system-call cause with the process not killed, [syscall] is
    the first call of the run and is made with the saved program counter at
    the trapped one plus 4 (in 64 bits), and is the only such call; on a
    page-fault cause the saved program counter is the trapped one at every
    call of the run and at its end. *)
Theorem usertrap_saved_pc (m : machine W) :
  from_user pf m = true -> has_proc m = true ->
  (scause m = 8 -> killed (curproc m) = 0 ->
   (exists l, log_of (usertrap pf co m) = (Call_syscall, at_syscall pf m) :: l /\
              existsb is_syscall (calls l) = false) /\
   saved_pc (at_syscall pf m) = wrap64 (sepc m + 4) /\
   (0 <= sepc m -> sepc m + 4 < 2 ^ 64 -> saved_pc (at_syscall pf m) = sepc m + 4)) /\
  (is_page_fault (scause m) = true ->
   saved_pc (final (usertrap pf co m)) = sepc m /\
   Forall (fun em => saved_pc (snd em) = sepc m) (log_of (usertrap pf co m))).
Proof.
  intros Hu Hp. split.
  - intros Hc Hk. rewrite (usertrap_syscall_run m Hu Hp Hc Hk).
    rewrite log_of_prepend. repeat split.
    + eexists. split; [ reflexivity | ].
      apply (never_invoked is_syscall (usertrap_finish pf co 0)).
      apply usertrap_finish_never; reflexivity.
    + intros H0 H4. unfold at_syscall, saved_pc. simpl.
      apply wrap64_small. lia.
  - intros Hc. rewrite (usertrap_page_fault_run m Hu Hp Hc).
    destruct (page_fault_path_keeps_pc (sepc m) (scause m) (stval m) (sepc m)
                (entered pf m) eq_refl) as (Hf & Hl & _).
    split; [ exact Hf | exact Hl ].
Qed.

(** C3: on each of the three page-fault causes, [usertrap] calls
    [handle_page_fault] once, with the cause and the faulting address as the
    registers give them, and the allocator once, with the process's page
    table, the cause, and [PGROUNDDOWN] of the faulting address: the start
    of the page that holds it, which is not the address itself unless the
    address is page-aligned. *)
Theorem usertrap_page_fault_address (m : machine W) :
  from_user pf m = true -> has_proc m = true ->
  is_page_fault (scause m) = true ->
  0 <= stval m < 2 ^ 64 ->
  filter is_handle_page_fault (calls (log_of (usertrap pf co m)))
  = [Call_handle_page_fault (scause m) (stval m) (sepc m)] /\
  filter is_do_allocate (calls (log_of (usertrap pf co m)))
  = [Call_do_allocate (pagetable (curproc m)) (PGROUNDDOWN (stval m))
                      (scause m)] /\
  PGROUNDDOWN (stval m) = PGSIZE * (stval m / PGSIZE) /\
  PGROUNDDOWN (stval m) <= stval m < PGROUNDDOWN (stval m) + PGSIZE /\
  (stval m mod PGSIZE <> 0 -> PGROUNDDOWN (stval m) <> stval m).
Proof.
  intros Hu Hp Hc Hr.
  rewrite (usertrap_page_fault_run m Hu Hp Hc).
  rewrite log_of_bind, calls_app, !filter_app.
  destruct (handle_page_fault_calls (scause m) (stval m) (sepc m) (entered pf m))
    as (Ha & Hh).
  rewrite Ha, Hh.
  assert (Hrest : forall f, f Call_usertrapret = false -> f Call_yield = false ->
            filter f (calls
              match handle_page_fault pf co (scause m) (stval m) (sepc m)
                      (entered pf m) with
              | Ret _ m1 _ =>
                  log_of ((which_dev <- ret 0 ;; usertrap_finish pf co which_dev) m1)
              | Stop _ _ _ => []
              end) = []).
  { intros f H1 H2.
    destruct (handle_page_fault pf co (scause m) (stval m) (sepc m) (entered pf m))
      as [a m1 l1 | r m1 l1]; [ | reflexivity ].
    rewrite bind_ret. now apply never_filter, usertrap_finish_never. }
  rewrite !Hrest by reflexivity.
  destruct (PGROUNDDOWN_bounds (stval m) Hr) as (Hmod & Hle).
  repeat split; try apply Hle.
  - now apply PGROUNDDOWN_page.
  - intros Hne Heq. rewrite Heq in Hmod. contradiction.
Qed.

(** C5: on the system-call cause with the process already killed,
    [usertrap] ends in [exit(-1)] with an empty log, so without the call of
    [syscall], and with the saved program counter as trapped. *)
Theorem usertrap_killed_syscall (m : machine W) :
  from_user pf m = true -> has_proc m = true ->
  scause m = 8 -> killed (curproc m) <> 0 ->
  usertrap pf co m = Stop (Exit (-1)) (entered pf m) [] /\
  invoked is_syscall (usertrap pf co m) = false /\
  saved_pc (final (usertrap pf co m)) = sepc m.
Proof.
  intros Hu Hp Hc Hk.
  assert (H : usertrap pf co m = Stop (Exit (-1)) (entered pf m) []).
  { rewrite usertrap_run, Hu, Hp, Hc.
    unfold usertrap_dispatch. change (8 =? 8) with true. cbv iota.
    unfold p_get, exit. run.
    change (killed (curproc (entered pf m))) with (killed (curproc m)).
    apply Z.eqb_neq in Hk. unfold truthy. rewrite Hk. simpl negb.
    unfold when at 1. run. reflexivity. }
  rewrite H. repeat split.
Qed.

End UsertrapFacts.

Lemma usertrap_interrupt_cause_witness :
  invoked is_handle_page_fault
    (usertrap Sample.xv6 Sample.quiet
       (Sample.user_trap 0x8000000000000009 0 0x1000 0 Sample.init 10)) = false /\
  invoked is_do_allocate
    (usertrap Sample.xv6 Sample.quiet
       (Sample.user_trap 0x8000000000000009 0 0x1000 0 Sample.init 10)) = false /\
  invoked is_syscall
    (usertrap Sample.xv6 Sample.quiet
       (Sample.user_trap 0x8000000000000009 0 0x1000 0 Sample.init 10)) = false /\
  exists l,
    log_of (usertrap Sample.xv6 Sample.quiet
              (Sample.user_trap 0x8000000000000009 0 0x1000 0 Sample.init 10))
    = (Call_devintr,
       entered Sample.xv6
         (Sample.user_trap 0x8000000000000009 0 0x1000 0 Sample.init 10)) :: l.
Proof.
  destruct (usertrap_interrupt_cause Sample.xv6 Sample.quiet
              (Sample.user_trap 0x8000000000000009 0 0x1000 0 Sample.init 10)
              eq_refl) as (H1 & H2 & H3 & H4).
  split; [ exact H1 | split; [ exact H2 | split; [ exact H3 | ] ] ].
  apply H4; reflexivity.
Defined.

Lemma usertrap_saved_pc_witness :
  ((exists l,
      log_of (usertrap Sample.xv6 Sample.quiet
                (Sample.user_trap 8 0 0x1000 0 Sample.init 0))
      = (Call_syscall,
         at_syscall Sample.xv6 (Sample.user_trap 8 0 0x1000 0 Sample.init 0)) :: l /\
      existsb is_syscall (calls l) = false) /\
   saved_pc (at_syscall Sample.xv6 (Sample.user_trap 8 0 0x1000 0 Sample.init 0))
   = wrap64 (0x1000 + 4) /\
   saved_pc (at_syscall Sample.xv6 (Sample.user_trap 8 0 0x1000 0 Sample.init 0))
   = 0x1004) /\
  (saved_pc (final (usertrap Sample.xv6 Sample.quiet
                      (Sample.user_trap 0xd 0x4321 0x1000 0 Sample.init 0)))
   = 0x1000 /\
   Forall (fun em => saved_pc (snd em) = 0x1000)
     (log_of (usertrap Sample.xv6 Sample.quiet
                (Sample.user_trap 0xd 0x4321 0x1000 0 Sample.init 0)))).
Proof.
  split.
  - destruct (proj1 (usertrap_saved_pc Sample.xv6 Sample.quiet
                       (Sample.user_trap 8 0 0x1000 0 Sample.init 0)
                       eq_refl eq_refl) eq_refl eq_refl) as (H1 & H2 & H3).
    split; [ exact H1 | split; [ exact H2 | ] ].
    apply H3; [ discriminate | reflexivity ].
  - apply (proj2 (usertrap_saved_pc Sample.xv6 Sample.quiet
                    (Sample.user_trap 0xd 0x4321 0x1000 0 Sample.init 0)
                    eq_refl eq_refl)).
    reflexivity.
Defined.

Lemma usertrap_page_fault_address_witness :
  filter is_handle_page_fault
    (calls (log_of (usertrap Sample.xv6 Sample.quiet
                      (Sample.user_trap 0xf 0x4321 0x1000 0 Sample.init 0))))
  = [Call_handle_page_fault 0xf 0x4321 0x1000] /\
  filter is_do_allocate
    (calls (log_of (usertrap Sample.xv6 Sample.quiet
                      (Sample.user_trap 0xf 0x4321 0x1000 0 Sample.init 0))))
  = [Call_do_allocate 0x87f6e000 (PGROUNDDOWN 0x4321) 0xf] /\
  PGROUNDDOWN 0x4321 = PGSIZE * (0x4321 / PGSIZE) /\
  PGROUNDDOWN 0x4321 <= 0x4321 < PGROUNDDOWN 0x4321 + PGSIZE /\
  PGROUNDDOWN 0x4321 <> 0x4321.
Proof.
  destruct (usertrap_page_fault_address Sample.xv6 Sample.quiet
              (Sample.user_trap 0xf 0x4321 0x1000 0 Sample.init 0)
              eq_refl eq_refl eq_refl)
    as (H1 & H2 & H3 & H4 & H5).
  - split; [ discriminate | reflexivity ].
  - split; [ exact H1 | split; [ exact H2 | split; [ exact H3 | ] ] ].
    split; [ exact H4 | ]. apply H5. discriminate.
Defined.

Lemma usertrap_killed_syscall_witness :
  usertrap Sample.xv6 Sample.quiet
    (Sample.user_trap 8 0 0x1000 0 (set_killed 1 Sample.init) 0)
  = Stop (Exit (-1))
      (entered Sample.xv6
         (Sample.user_trap 8 0 0x1000 0 (set_killed 1 Sample.init) 0)) [] /\
  invoked is_syscall
    (usertrap Sample.xv6 Sample.quiet
       (Sample.user_trap 8 0 0x1000 0 (set_killed 1 Sample.init) 0)) = false /\
  saved_pc (final (usertrap Sample.xv6 Sample.quiet
                     (Sample.user_trap 8 0 0x1000 0 (set_killed 1 Sample.init) 0)))
  = 0x1000.
Proof.
  apply (usertrap_killed_syscall Sample.xv6 Sample.quiet
           (Sample.user_trap 8 0 0x1000 0 (set_killed 1 Sample.init) 0));
    [ reflexivity | reflexivity | reflexivity | discriminate ].
Defined.

(** * Further properties *)

(** ** More about runs *)

Section MoreRunFacts.

Context {W : Type}.

Lemma returns_prepend {A} l (o : outcome W A) : returns (prepend l o) = returns o.
Proof. now destruct o. Qed.

Lemma invoked_prepend {A} f l (o : outcome W A) :
  invoked f (prepend l o) = existsb f (calls l) || invoked f o.
Proof.
  unfold invoked. now rewrite log_of_prepend, calls_app, existsb_app.
Qed.

(** A program whose last part never comes back never comes back. *)
Lemma bind_never_returns {A B} (c : M W A) (k : A -> M W B) m :
  (forall a m1, returns (k a m1) = false) -> returns (bind c k m) = false.
Proof.
  intros Hk. unfold bind. destruct (c m) as [a m1 l1 | r m1 l1]; [ | reflexivity ].
  rewrite returns_prepend. apply Hk.
Qed.

Lemma ensures_bind {A B} Q (c : M W A) (k : A -> M W B) :
  (forall a, ensures Q (k a)) -> ensures Q (bind c k).
Proof.
  intros Hk m b m' l. unfold bind.
  destruct (c m) as [a m1 l1 | r m1 l1]; [ | discriminate ].
  destruct (k a m1) as [b' m2 l2 | r m2 l2] eqn:E; simpl; [ | discriminate ].
  intros H. injection H as _ <- _. exact (Hk a m1 b' m2 l2 E).
Qed.

Lemma sat_assoc Inv Ok Why {A B C}
      (c : M W A) (k1 : A -> M W B) (k2 : B -> M W C) :
  sat Inv Ok Why (bind c (fun a => bind (k1 a) k2)) ->
  sat Inv Ok Why (bind (bind c k1) k2).
Proof. intros H m Hm. rewrite bind_bind. now apply H. Qed.

Lemma same_context_refl (m : machine W) : same_context m m.
Proof. unfold same_context. repeat split. Qed.

End MoreRunFacts.

(** ** The description table, in general *)

Lemma cause_code_nonneg c : 0 <= cause_code c.
Proof. unfold cause_code. apply Z.land_nonneg. right. discriminate. Qed.

Lemma cause_code_exception c : 0 <= c < 2 ^ 63 -> cause_code c = c.
Proof.
  intros Hc. unfold cause_code.
  replace (wrap64 (Z.lnot INTR_MASK)) with (Z.ones 63) by reflexivity.
  rewrite Z.land_ones by lia. now apply Z.mod_small.
Qed.

Lemma top_bit_exception c : 0 <= c < 2 ^ 63 -> top_bit c = false.
Proof.
  intros Hc. unfold top_bit.
  destruct (Z.eq_dec c 0) as [-> | Hz]; [ reflexivity | ].
  apply Z.bits_above_log2; [ lia | ]. apply Z.log2_lt_pow2; lia.
Qed.

Lemma index_in_table (t : list string) i :
  0 <= i < NELEM t -> In (index t i) t.
Proof.
  unfold NELEM, index. intros Hi. apply nth_In. lia.
Qed.

(** In the exception numbering space the codes beyond the table fall into
    the ranges of the cause-code standard: 16-23, 32-47 and 64 upwards are
    reserved for future standard use, 24-31 and 48-63 for custom use; in the
    interrupt space every code beyond the table is left to the platform. *)
Theorem scause_desc_ranges (c : Z) :
  (top_bit c = false ->
   (16 <= cause_code c <= 23 \/ 32 <= cause_code c <= 47 \/ 64 <= cause_code c ->
    scause_desc c = "<reserved for future standard use>") /\
   (24 <= cause_code c <= 31 \/ 48 <= cause_code c <= 63 ->
    scause_desc c = "<reserved for custom use>")) /\
  (top_bit c = true -> 16 <= cause_code c ->
   scause_desc c = "<reserved for platform use>").
Proof.
  unfold scause_desc. rewrite land_INTR_MASK. fold (cause_code c).
  change (NELEM intr_desc) with 16. change (NELEM nointr_desc) with 16.
  split.
  - intros ->. simpl negb. cbv iota. split; intros H.
    + destruct (Z.ltb_spec (cause_code c) 16); [ lia | ].
      destruct (Z.leb_spec (cause_code c) 23); [ reflexivity | ].
      destruct (Z.leb_spec (cause_code c) 31); [ lia | ].
      destruct (Z.leb_spec (cause_code c) 47); [ reflexivity | ].
      destruct (Z.leb_spec (cause_code c) 63); [ lia | reflexivity ].
    + destruct (Z.ltb_spec (cause_code c) 16); [ lia | ].
      destruct (Z.leb_spec (cause_code c) 23); [ lia | ].
      destruct (Z.leb_spec (cause_code c) 31); [ reflexivity | ].
      destruct (Z.leb_spec (cause_code c) 47); [ lia | ].
      destruct (Z.leb_spec (cause_code c) 63); [ reflexivity | lia ].
  - intros -> H. simpl negb. cbv iota.
    destruct (Z.ltb_spec (cause_code c) 16); [ lia | reflexivity ].
Qed.

Lemma scause_desc_ranges_witness :
  (scause_desc 20 = "<reserved for future standard use>" /\
   scause_desc 50 = "<reserved for custom use>") /\
  scause_desc 0x8000000000000020 = "<reserved for platform use>".
Proof.
  split; [ split | ].
  - apply (proj1 (proj1 (scause_desc_ranges 20) eq_refl)).
    left. vm_compute. split; discriminate.
  - apply (proj2 (proj1 (scause_desc_ranges 50) eq_refl)).
    right. vm_compute. split; discriminate.
  - apply (proj2 (scause_desc_ranges 0x8000000000000020) eq_refl).
    vm_compute. discriminate.
Defined.

(** Whatever the cause value, the label is an entry of one of the two
    tables or one of the three fallback labels: no lookup leaves the
    16 entries of its table, and no label is empty. *)
Theorem scause_desc_in_tables (c : Z) :
  In (scause_desc c) (intr_desc ++ nointr_desc ++ fallback_labels) /\
  scause_desc c <> "".
Proof.
  assert (H : In (scause_desc c) (intr_desc ++ nointr_desc ++ fallback_labels)).
  { unfold scause_desc. fold (cause_code c).
    pose proof (cause_code_nonneg c) as Hc.
    destruct (negb (Z.land c INTR_MASK =? 0)).
    - destruct (Z.ltb_spec (cause_code c) (NELEM intr_desc)).
      + apply in_or_app. left. apply index_in_table. lia.
      + apply in_or_app. right. apply in_or_app. right. simpl. auto.
    - destruct (Z.ltb_spec (cause_code c) (NELEM nointr_desc)).
      + apply in_or_app. right. apply in_or_app. left.
        apply index_in_table. lia.
      + apply in_or_app. right. apply in_or_app. right.
        destruct (cause_code c <=? 23); [ simpl; auto | ].
        destruct (cause_code c <=? 31); [ simpl; auto | ].
        destruct (cause_code c <=? 47); [ simpl; auto | ].
        destruct (cause_code c <=? 63); simpl; auto. }
  split; [ exact H | ].
  intros E. rewrite E in H. revert H. clear.
  simpl. intuition discriminate.
Qed.

(** ** The timer tick, its locks and its threshold *)

Section MoreClockFacts.

Context {W : Type} (co : collab W).


(** The watchdog comparison is strict: with a non-zero threshold that the
    elapsed ticks do not exceed, the threshold itself included, the tick
    goes through and the counter advances. *)
Theorem clockintr_within_threshold (m : machine W) :
  watchdog_time m <> 0 -> elapsed m <= wrap32 (watchdog_time m) ->
  exists l, clockintr co m = Ret tt (ticked co m) l /\
            ticks (ticked co m) = wrap32 (ticks m + 1).
Proof.
  intros Hne Hle. rewrite clockintr_run. unfold watchdog_expired.
  assert (E : (elapsed m >? wrap32 (watchdog_time m)) = false).
  { rewrite Z.gtb_ltb. apply Z.ltb_ge. exact Hle. }
  rewrite E, andb_false_r. eexists. split; reflexivity.
Qed.

End MoreClockFacts.

Lemma clockintr_within_threshold_witness :
  exists l, clockintr Sample.quiet (Sample.tick 100 90 10)
            = Ret tt (ticked Sample.quiet (Sample.tick 100 90 10)) l /\
            ticks (ticked Sample.quiet (Sample.tick 100 90 10)) = wrap32 (100 + 1).
Proof.
  apply (clockintr_within_threshold Sample.quiet (Sample.tick 100 90 10));
    vm_compute; discriminate.
Defined.

(** ** The device interrupt router, in general *)

Section MoreDevintrFacts.

Context {W : Type} (pf : platform) (co : collab W).

Lemma testbit_wrap64_lnot x n :
  0 <= n -> Z.testbit (wrap64 (Z.lnot x)) n = (n <? 64) && negb (Z.testbit x n).
Proof.
  intros Hn. unfold wrap64. destruct (Z.ltb_spec n 64).
  - rewrite Z.mod_pow2_bits_low by lia. now rewrite Z.lnot_spec.
  - now rewrite Z.mod_pow2_bits_high by lia.
Qed.

(** The external path, run to its end. *)
Lemma devintr_external_run m :
  is_external (scause m) = true ->
  exists m' l,
    devintr pf co m = Ret 1 m' l /\
    calls l = Call_devintr :: Call_plic_claim :: service_calls pf (claimed co m) /\
    same_context m m' /\ ticks m' = ticks m /\ sip m' = sip m.
Proof.
  intros Hext. rewrite (devintr_external pf co m Hext).
  unfold service_calls, service, when, plic_complete, uartintr, virtio_disk_intr.
  destruct (claimed co m =? UART0_IRQ pf);
    [ | destruct ((claimed co m =? VIRTIO0_IRQ pf)
                  || (claimed co m =? VIRTIO1_IRQ pf)) ];
    destruct (truthy (claimed co m));
    run; simpl; eexists _, _;
    (split; [ reflexivity | split; [ reflexivity | ] ]);
    (split; [ unfold same_context; simpl; repeat split | split; reflexivity ]).
Qed.

(** The three ways [devintr] can go. *)
Lemma devintr_outcome m :
  (is_external (scause m) = true /\ is_timer (scause m) = false /\
   exists m' l, devintr pf co m = Ret 1 m' l) \/
  (is_timer (scause m) = true /\
   ((exists m' l, devintr pf co m = Ret 2 m' l) \/
    (exists m' l, devintr pf co m = Stop (Panic "watchdog !!!") m' l))) \/
  (is_external (scause m) = false /\ is_timer (scause m) = false /\
   devintr pf co m = Ret 0 m [(Call_devintr, m)]).
Proof.
  destruct (is_external (scause m)) eqn:Hext.
  - left. split; [ reflexivity | ]. split.
    + destruct (is_timer (scause m)) eqn:Ht; [ | reflexivity ].
      rewrite (is_timer_not_external _ Ht) in Hext. discriminate.
    + destruct (devintr_external_run m Hext) as (m' & l & H & _).
      now exists m', l.
  - destruct (is_timer (scause m)) eqn:Ht.
    + right. left. split; [ reflexivity | ].
      rewrite (devintr_timer pf co m Ht), clockintr_run.
      destruct (tp m =? 0); [ destruct (watchdog_expired m) | ]; simpl.
      * right. eexists _, _. reflexivity.
      * left. eexists _, _. reflexivity.
      * left. eexists _, _. reflexivity.
    + right. right. split; [ reflexivity | ]. split; [ reflexivity | ].
      now apply devintr_other.
Qed.

(** The result of [devintr] tells the encoding: 1 for the external
    interrupt, 2 for the timer interrupt, and 0 for any other cause, which
    is then left with the state untouched and nothing called. *)
Theorem devintr_result (m : machine W) d m' l :
  devintr pf co m = Ret d m' l ->
  (d = 1 /\ is_external (scause m) = true) \/
  (d = 2 /\ is_timer (scause m) = true) \/
  (d = 0 /\ is_external (scause m) = false /\ is_timer (scause m) = false /\
   m' = m /\ l = [(Call_devintr, m)]).
Proof.
  intros H.
  destruct (devintr_outcome m)
    as [(He & _ & m1 & l1 & E) | [(Ht & [(m1 & l1 & E) | (m1 & l1 & E)])
                                 | (He & Ht & E)]];
    rewrite E in H; try discriminate; injection H as <- <- <-.
  - left. now split.
  - right. left. now split.
  - right. right. repeat split; assumption.
Qed.

(** On the timer interrupt every core that gets through acknowledges it:
    the pending bit SSIP (bit 1 of sip) is cleared and no other bit of sip
    changes. *)
Theorem devintr_acknowledges (m : machine W) d m' l :
  is_timer (scause m) = true -> 0 <= sip m < 2 ^ 64 ->
  devintr pf co m = Ret d m' l ->
  Z.testbit (sip m') 1 = false /\
  (forall n, n <> 1 -> Z.testbit (sip m') n = Z.testbit (sip m) n).
Proof.
  intros Ht Hs H.
  assert (E : sip m' = Z.land (sip m) (wrap64 (Z.lnot 2))).
  { revert H. rewrite (devintr_timer pf co m Ht), clockintr_run.
    destruct (tp m =? 0); [ destruct (watchdog_expired m) | ]; simpl;
      intros H; try discriminate; injection H as _ <- _; reflexivity. }
  rewrite E. split.
  - rewrite Z.land_spec, testbit_wrap64_lnot by lia.
    simpl. apply andb_false_r.
  - intros n Hn. destruct (Z.ltb_spec n 0) as [Hneg | Hpos].
    + now rewrite !Z.testbit_neg_r.
    + rewrite Z.land_spec, testbit_wrap64_lnot by lia.
      change (Z.testbit 2 n) with (Z.testbit (2 ^ 1) n).
      rewrite Z.pow2_bits_eqb by lia.
      destruct (Z.ltb_spec n 64).
      * destruct (Z.eqb_spec 1 n); [ lia | ]. simpl. apply andb_true_r.
      * rewrite (testbit_uint64_high (sip m) n) by lia. reflexivity.
Qed.

(** On the external interrupt the calls are, in this order: the claim, the
    service routine the identifier selects (the UART's, or the disk's with
    the identifier's offset from the first disk, or none), and the
    completion when the identifier is not 0. *)
Theorem devintr_service (m : machine W) :
  is_external (scause m) = true ->
  calls (log_of (devintr pf co m))
  = Call_devintr :: Call_plic_claim :: service_calls pf (claimed co m).
Proof.
  intros Hext.
  destruct (devintr_external_run m Hext) as (m' & l & H & Hc & _).
  rewrite H. exact Hc.
Qed.

(** [devintr] leaves the trap registers, the current process and the
    watchdog settings as they are, whatever the cause and however it ends;
    the tick counter changes on the timer interrupt of core 0 only. *)
Theorem devintr_context (m : machine W) :
  same_context m (final (devintr pf co m)) /\
  (is_timer (scause m) = false \/ tp m <> 0 ->
   ticks (final (devintr pf co m)) = ticks m).
Proof.
  destruct (is_external (scause m)) eqn:Hext.
  - destruct (devintr_external_run m Hext) as (m' & l & H & _ & Hc & Ht & _).
    rewrite H. simpl. split; [ exact Hc | intros _; exact Ht ].
  - destruct (is_timer (scause m)) eqn:Ht.
    + rewrite (devintr_timer pf co m Ht), clockintr_run.
      destruct (Z.eqb_spec (tp m) 0) as [Hc | Hc];
        [ destruct (watchdog_expired m) | ]; simpl;
        (split; [ unfold same_context; simpl; repeat split | ]);
        intros [F | F]; try discriminate; try contradiction; reflexivity.
    + rewrite (devintr_other pf co m Hext Ht). simpl.
      split; [ apply same_context_refl | reflexivity ].
Qed.

End MoreDevintrFacts.

Lemma devintr_result_witness :
  (0 = 1 /\ is_external (scause (Sample.kernel_trap 256 5 0 0)) = true) \/
  (0 = 2 /\ is_timer (scause (Sample.kernel_trap 256 5 0 0)) = true) \/
  (0 = 0 /\ is_external (scause (Sample.kernel_trap 256 5 0 0)) = false /\
   is_timer (scause (Sample.kernel_trap 256 5 0 0)) = false /\
   Sample.kernel_trap 256 5 0 0 = Sample.kernel_trap 256 5 0 0 /\
   [(Call_devintr, Sample.kernel_trap 256 5 0 0)]
   = [(Call_devintr, Sample.kernel_trap 256 5 0 0)]).
Proof.
  apply (devintr_result Sample.xv6 Sample.quiet (Sample.kernel_trap 256 5 0 0)
           0 (Sample.kernel_trap 256 5 0 0)
           [(Call_devintr, Sample.kernel_trap 256 5 0 0)]).
  reflexivity.
Defined.

Lemma devintr_acknowledges_witness :
  Z.testbit (sip (acked (Sample.tick 101 0 0))) 1 = false /\
  (forall n, n <> 1 ->
     Z.testbit (sip (acked (Sample.tick 101 0 0))) n
     = Z.testbit (sip (Sample.tick 100 0 0)) n).
Proof.
  apply (devintr_acknowledges Sample.xv6 Sample.quiet (Sample.tick 100 0 0) 2
           (acked (Sample.tick 101 0 0))
           (log_of (devintr Sample.xv6 Sample.quiet (Sample.tick 100 0 0))));
    [ reflexivity | vm_compute; split; [ discriminate | reflexivity ]
    | vm_compute; reflexivity ].
Defined.

Lemma devintr_service_witness :
  calls (log_of (devintr Sample.xv6 Sample.quiet
                   (Sample.kernel_trap 256 0x8000000000000009 0 2)))
  = Call_devintr :: Call_plic_claim
    :: service_calls Sample.xv6
         (claimed Sample.quiet (Sample.kernel_trap 256 0x8000000000000009 0 2)).
Proof.
  apply (devintr_service Sample.xv6 Sample.quiet
           (Sample.kernel_trap 256 0x8000000000000009 0 2)).
  reflexivity.
Defined.

Lemma devintr_context_witness :
  same_context (Sample.kernel_trap 256 0x8000000000000009 0 10)
    (final (devintr Sample.xv6 Sample.quiet
              (Sample.kernel_trap 256 0x8000000000000009 0 10))) /\
  ticks (final (devintr Sample.xv6 Sample.quiet
                  (Sample.kernel_trap 256 0x8000000000000009 0 10)))
  = ticks (Sample.kernel_trap 256 0x8000000000000009 0 10).
Proof.
  destruct (devintr_context Sample.xv6 Sample.quiet
              (Sample.kernel_trap 256 0x8000000000000009 0 10)) as (H1 & H2).
  split; [ exact H1 | apply H2; left; reflexivity ].
Defined.

(** ** The page-fault resolver *)

Section PageFaultFacts.

Context {W : Type} (pf : platform) (co : collab W).

(** The resolver after a failed allocation. *)
Lemma page_fault_outcome_failure p sc sv pc fl (m : machine W) :
  fl < 0 ->
  exists l,
    page_fault_outcome pf p sc sv pc fl m = Ret (-1) (killed_state m) l /\
    filter is_lock_call (calls l) = [Call_release vma_lock] /\
    hd_error (calls l) = Some (Call_release vma_lock) /\
    In Call_proc_vmprint (calls l) /\
    In (Call_printf
          "unrecoverable page fault by pid=%d at sepc=%p stval=%p scause=%x\n"
          [PInt (pid p); PInt pc; PInt sv; PInt sc]) (calls l).
Proof.
  intros Hfl. apply Z.ltb_lt in Hfl.
  unfold page_fault_outcome, release, printf, proc_vmprint, p_set.
  rewrite Hfl.
  destruct (fl =? ENOVMA pf);
    [ | destruct (fl =? ENOMEM pf);
        [ | destruct (fl =? ENOFILE pf);
            [ | destruct (fl =? EMAPFAILED pf);
                [ | destruct (fl =? EBADPERM pf) ] ] ] ];
    run; simpl; eexists;
    (split; [ reflexivity | simpl; repeat split; auto 8 ]).
Qed.

Lemma page_fault_outcome_success p sc sv pc fl (m : machine W) :
  0 <= fl ->
  page_fault_outcome pf p sc sv pc fl m = Ret 0 m [(Call_release vma_lock, m)].
Proof.
  intros Hfl. apply Z.ltb_ge in Hfl.
  unfold page_fault_outcome, release. rewrite Hfl. run. reflexivity.
Qed.

(** When the allocator answers with a negative code, [handle_page_fault]
    dumps the process's mappings, reports the fault, marks the process
    killed and gives -1 back; besides the flag and what the allocator did to
    its own state, the machine is unchanged. *)
Theorem handle_page_fault_failure (sc sv pc : Z) (m : machine W) :
  fst (allocated co sc sv m) < 0 ->
  exists l,
    handle_page_fault pf co sc sv pc m
    = Ret (-1) (killed_state (set_world (snd (allocated co sc sv m)) m)) l /\
    In Call_proc_vmprint (calls l) /\
    In (Call_printf
          "unrecoverable page fault by pid=%d at sepc=%p stval=%p scause=%x\n"
          [PInt (pid (curproc m)); PInt pc; PInt sv; PInt sc]) (calls l).
Proof.
  intros Hfl. rewrite handle_page_fault_run.
  destruct (page_fault_outcome_failure (curproc m) sc sv pc _
              (set_world (snd (allocated co sc sv m)) m) Hfl)
    as (l & E & _ & _ & Hv & Hp).
  rewrite E. simpl. eexists. split; [ reflexivity | ].
  unfold calls in *. simpl. split; auto 10.
Qed.

(** When the allocator answers with a code that is not negative,
    [handle_page_fault] gives 0 back without any further output and leaves
    the process as it was: the only change is what the allocator did to its
    own state. *)
Theorem handle_page_fault_success (sc sv pc : Z) (m : machine W) :
  0 <= fst (allocated co sc sv m) ->
  exists l,
    handle_page_fault pf co sc sv pc m
    = Ret 0 (set_world (snd (allocated co sc sv m)) m) l /\
    calls l = page_fault_prologue sc sv pc m.
Proof.
  intros Hfl. rewrite handle_page_fault_run.
  rewrite (page_fault_outcome_success (curproc m) sc sv pc _ _ Hfl).
  simpl. eexists. split; reflexivity.
Qed.

(** On every path [handle_page_fault] comes back, with 0 or -1; it takes
    the process's lock once, calls the allocator under it, and gives the
    lock back once, right after the allocator answered and before any
    report of a failure. *)
Theorem handle_page_fault_lock (sc sv pc : Z) (m : machine W) :
  exists r m' l rest,
    handle_page_fault pf co sc sv pc m = Ret r m' l /\
    (r = 0 \/ r = -1) /\
    calls l = page_fault_prologue sc sv pc m ++ rest /\
    filter is_lock_call rest = [] /\
    filter is_lock_call (calls l)
    = [Call_acquire vma_lock; Call_release vma_lock].
Proof.
  destruct (Z.lt_ge_cases (fst (allocated co sc sv m)) 0) as [Hfl | Hfl].
  - rewrite handle_page_fault_run.
    destruct (page_fault_outcome_failure (curproc m) sc sv pc _
                (set_world (snd (allocated co sc sv m)) m) Hfl)
      as (l & E & Hk & Hh & _).
    rewrite E. simpl.
    destruct l as [ | [e m0] l ]; [ discriminate | ].
    simpl in Hh. injection Hh as ->. simpl in Hk. injection Hk as Hk.
    eexists _, _, _, (calls l).
    split; [ reflexivity | ]. split; [ now right | ].
    split; [ reflexivity | ]. split; [ exact Hk | ].
    simpl. now rewrite Hk.
  - rewrite handle_page_fault_run.
    rewrite (page_fault_outcome_success (curproc m) sc sv pc _ _ Hfl).
    simpl. eexists 0, _, _, [].
    split; [ reflexivity | ]. split; [ now left | ].
    repeat split.
Qed.

End PageFaultFacts.

Lemma handle_page_fault_failure_witness :
  exists l,
    handle_page_fault Sample.xv6 Faulty.no_memory 0xd 0x4321 0x1000
      (Sample.user_trap 0xd 0x4321 0x1000 0 Sample.init 0)
    = Ret (-1)
        (killed_state
           (set_world
              (snd (allocated Faulty.no_memory 0xd 0x4321
                      (Sample.user_trap 0xd 0x4321 0x1000 0 Sample.init 0)))
              (Sample.user_trap 0xd 0x4321 0x1000 0 Sample.init 0))) l /\
    In Call_proc_vmprint (calls l) /\
    In (Call_printf
          "unrecoverable page fault by pid=%d at sepc=%p stval=%p scause=%x\n"
          [PInt (pid (curproc (Sample.user_trap 0xd 0x4321 0x1000 0 Sample.init 0)));
           PInt 0x1000; PInt 0x4321; PInt 0xd]) (calls l).
Proof.
  apply (handle_page_fault_failure Sample.xv6 Faulty.no_memory 0xd 0x4321 0x1000
           (Sample.user_trap 0xd 0x4321 0x1000 0 Sample.init 0)).
  reflexivity.
Defined.

Lemma handle_page_fault_success_witness :
  exists l,
    handle_page_fault Sample.xv6 Sample.quiet 0xd 0x4321 0x1000
      (Sample.user_trap 0xd 0x4321 0x1000 0 Sample.init 0)
    = Ret 0
        (set_world
           (snd (allocated Sample.quiet 0xd 0x4321
                   (Sample.user_trap 0xd 0x4321 0x1000 0 Sample.init 0)))
           (Sample.user_trap 0xd 0x4321 0x1000 0 Sample.init 0)) l /\
    calls l = page_fault_prologue 0xd 0x4321 0x1000
                (Sample.user_trap 0xd 0x4321 0x1000 0 Sample.init 0).
Proof.
  apply (handle_page_fault_success Sample.xv6 Sample.quiet 0xd 0x4321 0x1000
           (Sample.user_trap 0xd 0x4321 0x1000 0 Sample.init 0)).
  discriminate.
Defined.

(** ** The return to user space *)

Section UsertrapretFacts.

Context {W : Type} (pf : platform).

Lemma usertrapret_run (m : machine W) :
  usertrapret pf m =
  if has_proc m then
    Stop (user_jump pf m) (resumed pf m) [(Call_usertrapret, m)]
  else
    Stop NullProc
         (set_stvec (uservec_va pf)
            (set_sstatus (Z.land (sstatus m) (wrap64 (Z.lnot (SSTATUS_SIE pf)))) m))
         [(Call_usertrapret, m)].
Proof.
  unfold usertrapret, intr_off, deref_myproc, tf_set, p_set, p_get,
    r_sstatus, r_satp, r_tp, w_sstatus, w_stvec, w_sepc.
  run. simpl has_proc. destruct (has_proc m); run; reflexivity.
Qed.

Lemma usertrapret_never_returns (m : machine W) :
  returns (usertrapret pf m) = false.
Proof. rewrite usertrapret_run. now destruct (has_proc m). Qed.

Lemma user_status_SPP s :
  status_masks pf -> Z.land (user_status pf s) (SSTATUS_SPP pf) = 0.
Proof.
  intros (Hp & _). apply Z.bits_inj'. intros n Hn. rewrite Z.bits_0.
  assert (H : Z.testbit (SSTATUS_SPIE pf) n && Z.testbit (SSTATUS_SPP pf) n = false)
    by (rewrite <- Z.land_spec, Hp; apply Z.bits_0).
  unfold user_status.
  rewrite Z.land_spec, Z.lor_spec, !Z.land_spec, !testbit_wrap64_lnot by lia.
  destruct (Z.testbit s n), (n <? 64), (Z.testbit (SSTATUS_SIE pf) n),
    (Z.testbit (SSTATUS_SPP pf) n), (Z.testbit (SSTATUS_SPIE pf) n);
    simpl in *; congruence.
Qed.

Lemma user_status_SIE s :
  status_masks pf -> Z.land (user_status pf s) (SSTATUS_SIE pf) = 0.
Proof.
  intros (_ & Hi). apply Z.bits_inj'. intros n Hn. rewrite Z.bits_0.
  assert (H : Z.testbit (SSTATUS_SPIE pf) n && Z.testbit (SSTATUS_SIE pf) n = false)
    by (rewrite <- Z.land_spec, Hi; apply Z.bits_0).
  unfold user_status.
  rewrite Z.land_spec, Z.lor_spec, !Z.land_spec, !testbit_wrap64_lnot by lia.
  destruct (Z.testbit s n), (n <? 64), (Z.testbit (SSTATUS_SIE pf) n),
    (Z.testbit (SSTATUS_SPP pf) n), (Z.testbit (SSTATUS_SPIE pf) n);
    simpl in *; congruence.
Qed.

Lemma user_status_SPIE s :
  Z.land (user_status pf s) (SSTATUS_SPIE pf) = SSTATUS_SPIE pf.
Proof.
  apply Z.bits_inj'. intros n Hn. unfold user_status.
  rewrite Z.land_spec, Z.lor_spec.
  destruct (Z.testbit (SSTATUS_SPIE pf) n);
    [ now rewrite orb_true_r | now rewrite andb_false_r ].
Qed.

(** [usertrapret] does not come back: for a core with a process it jumps to
    the trampoline's userret with the trap-frame address and the satp of the
    process's page table.  It leaves the saved program counter in sepc, the
    trampoline's uservec in stvec, and in the trap frame what the next trap
    needs (the kernel's satp, the top of the kernel stack, usertrap's
    address, the core's number), with the saved program counter untouched. *)
Theorem usertrapret_jump (m : machine W) :
  has_proc m = true ->
  usertrapret pf m = Stop (user_jump pf m) (resumed pf m) [(Call_usertrapret, m)] /\
  sepc (resumed pf m) = saved_pc m /\
  saved_pc (resumed pf m) = saved_pc m /\
  stvec (resumed pf m) = uservec_va pf /\
  kernel_satp (tf (curproc (resumed pf m))) = satp m /\
  kernel_sp (tf (curproc (resumed pf m))) = wrap64 (kstack (curproc m) + PGSIZE) /\
  kernel_trap (tf (curproc (resumed pf m))) = usertrap_addr pf /\
  kernel_hartid (tf (curproc (resumed pf m))) = tp m.
Proof.
  intros Hp. rewrite usertrapret_run, Hp. repeat split.
Qed.

(** The status [usertrapret] leaves has the previous privilege set to user,
    the previous interrupt enable set, and interrupts disabled until the
    return; so a trap taken with it passes [usertrap]'s entry check and
    would fail [kerneltrap]'s. *)
Theorem usertrapret_status (m : machine W) :
  has_proc m = true -> status_masks pf ->
  Z.land (sstatus (final (usertrapret pf m))) (SSTATUS_SPP pf) = 0 /\
  Z.land (sstatus (final (usertrapret pf m))) (SSTATUS_SPIE pf) = SSTATUS_SPIE pf /\
  Z.land (sstatus (final (usertrapret pf m))) (SSTATUS_SIE pf) = 0 /\
  from_user pf (final (usertrapret pf m)) = true /\
  from_supervisor pf (final (usertrapret pf m)) = false.
Proof.
  intros Hp Hm. rewrite usertrapret_run, Hp.
  change (sstatus (final (Stop (user_jump pf m) (resumed pf m)
                            [(Call_usertrapret, m)])))
    with (user_status pf (sstatus m)).
  unfold from_user, from_supervisor.
  change (sstatus (final (Stop (user_jump pf m) (resumed pf m)
                            [(Call_usertrapret, m)])))
    with (user_status pf (sstatus m)).
  rewrite (user_status_SPP _ Hm), (user_status_SIE _ Hm), user_status_SPIE.
  repeat split.
Qed.

End UsertrapretFacts.

Lemma usertrapret_jump_witness :
  usertrapret Sample.xv6 (Sample.user_trap 8 0 0x1000 3 Sample.init 0)
  = Stop (user_jump Sample.xv6 (Sample.user_trap 8 0 0x1000 3 Sample.init 0))
      (resumed Sample.xv6 (Sample.user_trap 8 0 0x1000 3 Sample.init 0))
      [(Call_usertrapret, Sample.user_trap 8 0 0x1000 3 Sample.init 0)] /\
  sepc (resumed Sample.xv6 (Sample.user_trap 8 0 0x1000 3 Sample.init 0))
  = saved_pc (Sample.user_trap 8 0 0x1000 3 Sample.init 0) /\
  saved_pc (resumed Sample.xv6 (Sample.user_trap 8 0 0x1000 3 Sample.init 0))
  = saved_pc (Sample.user_trap 8 0 0x1000 3 Sample.init 0) /\
  stvec (resumed Sample.xv6 (Sample.user_trap 8 0 0x1000 3 Sample.init 0))
  = uservec_va Sample.xv6 /\
  kernel_satp (tf (curproc (resumed Sample.xv6
                              (Sample.user_trap 8 0 0x1000 3 Sample.init 0))))
  = 0 /\
  kernel_sp (tf (curproc (resumed Sample.xv6
                            (Sample.user_trap 8 0 0x1000 3 Sample.init 0))))
  = wrap64 (0x3fffffe000 + PGSIZE) /\
  kernel_trap (tf (curproc (resumed Sample.xv6
                              (Sample.user_trap 8 0 0x1000 3 Sample.init 0))))
  = usertrap_addr Sample.xv6 /\
  kernel_hartid (tf (curproc (resumed Sample.xv6
                                (Sample.user_trap 8 0 0x1000 3 Sample.init 0))))
  = 3.
Proof.
  apply (usertrapret_jump Sample.xv6 (Sample.user_trap 8 0 0x1000 3 Sample.init 0)).
  reflexivity.
Defined.

Lemma usertrapret_status_witness :
  Z.land (sstatus (final (usertrapret Sample.xv6
                            (Sample.kernel_trap 258 8 0 0)))) 256 = 0 /\
  Z.land (sstatus (final (usertrapret Sample.xv6
                            (Sample.kernel_trap 258 8 0 0)))) 32 = 32 /\
  Z.land (sstatus (final (usertrapret Sample.xv6
                            (Sample.kernel_trap 258 8 0 0)))) 2 = 0 /\
  from_user Sample.xv6
    (final (usertrapret Sample.xv6 (Sample.kernel_trap 258 8 0 0))) = true /\
  from_supervisor Sample.xv6
    (final (usertrapret Sample.xv6 (Sample.kernel_trap 258 8 0 0))) = false.
Proof.
  apply (usertrapret_status Sample.xv6 (Sample.kernel_trap 258 8 0 0));
    [ reflexivity | split; reflexivity ].
Defined.

(** ** The nested kernel trap, in general *)

Section MoreKerneltrapFacts.

Context {W : Type} (pf : platform) (co : collab W).

Lemma kerneltrap_body_restores pc st sc :
  ensures (fun m' : machine W => sepc m' = pc /\ sstatus m' = st)
          (kerneltrap_body pf co pc st sc).
Proof.
  unfold kerneltrap_body. do 5 (apply ensures_bind; intro).
  intros m r m' l. unfold w_sepc, w_sstatus. rewrite bind_modify.
  unfold modify. intros H. injection H as _ <- _. split; reflexivity.
Qed.

(** Whenever [kerneltrap] comes back, sepc and sstatus hold what they held
    at entry, whatever [yield] and the traps taken meanwhile did to them. *)
Theorem kerneltrap_restores (m : machine W) a m' l :
  kerneltrap pf co m = Ret a m' l ->
  sepc m' = sepc m /\ sstatus m' = sstatus m.
Proof.
  rewrite kerneltrap_run.
  destruct (from_supervisor pf m); [ | discriminate ].
  destruct (intr_enabled pf m); [ discriminate | ].
  apply kerneltrap_body_restores.
Qed.

(** A cause that is neither the external nor the timer interrupt is fatal
    in the kernel: [kerneltrap] prints the cause with its description, sepc
    and stval, and panics, with the state as it was at entry. *)
Theorem kerneltrap_unknown_cause (m : machine W) :
  from_supervisor pf m = true -> intr_enabled pf m = false ->
  is_external (scause m) = false -> is_timer (scause m) = false ->
  kerneltrap pf co m =
  Stop (Panic "kerneltrap") m
    [(Call_devintr, m);
     (Call_printf "scause %p (%s)\n"
        [PInt (scause m); PStr (scause_desc (scause m))], m);
     (Call_printf "sepc=%p stval=%p\n" [PInt (sepc m); PInt (stval m)], m)].
Proof.
  intros Hs Hi He Ht. rewrite kerneltrap_run, Hs, Hi.
  unfold kerneltrap_body, bind at 1. rewrite (devintr_other pf co m He Ht).
  change (0 =? 0) with true. unfold when at 1, printf, panic, r_sepc, r_stval.
  run. reflexivity.
Qed.

Lemma kerneltrap_never f :
  In f [is_syscall; is_handle_page_fault; is_do_allocate; is_usertrapret] ->
  never f (kerneltrap pf co).
Proof.
  unfold never. intros [<- | [<- | [<- | [<- | []]]]]; sat_auto.
Qed.

(** [kerneltrap] never dispatches a system call, never resolves a page
    fault and never returns to user space: none of [syscall],
    [handle_page_fault], [do_allocate] and [usertrapret] is called. *)
Theorem kerneltrap_only_devices (m : machine W) :
  invoked is_syscall (kerneltrap pf co m) = false /\
  invoked is_handle_page_fault (kerneltrap pf co m) = false /\
  invoked is_do_allocate (kerneltrap pf co m) = false /\
  invoked is_usertrapret (kerneltrap pf co m) = false.
Proof.
  repeat split; apply never_invoked, kerneltrap_never; simpl; auto.
Qed.

Lemma devintr_never_yield : never is_yield (devintr pf co).
Proof. unfold never. sat_auto. Qed.

(** [kerneltrap] gives up the processor exactly when its entry checks pass,
    the cause is the timer interrupt, the watchdog does not stop the tick,
    and a process in state RUNNING is on the core. *)
Theorem kerneltrap_yield (m : machine W) :
  invoked is_yield (kerneltrap pf co m) = kernel_yields pf m.
Proof.
  rewrite kerneltrap_run. unfold kernel_yields.
  destruct (from_supervisor pf m); [ | reflexivity ].
  destruct (intr_enabled pf m); [ reflexivity | ]. simpl andb.
  pose proof (never_invoked is_yield (devintr pf co) m devintr_never_yield) as Hn.
  unfold kerneltrap_body, bind at 1.
  destruct (devintr_outcome pf co m)
    as [(He & Ht & m1 & l1 & E) | [(Ht & _) | (He & Ht & E)]].
  - destruct (devintr_external_run pf co m He) as (m2 & l2 & E2 & _ & Hc & _).
    rewrite E2 in *. rewrite Ht. simpl andb.
    rewrite invoked_prepend. unfold invoked in Hn. simpl in Hn. rewrite Hn.
    change (1 =? 0) with false. change (1 =? 2) with false.
    unfold when, p_get, w_sepc, w_sstatus. run. reflexivity.
  - rewrite Ht. revert Hn.
    rewrite (devintr_timer pf co m Ht), clockintr_run.
    unfold when, p_get, w_sepc, w_sstatus, yield.
    destruct (tp m =? 0); [ destruct (watchdog_expired m) | ]; simpl;
      intros _; try reflexivity; run;
      try change (has_proc (acked (ticked co m))) with (has_proc m);
      try change (curproc (acked (ticked co m))) with (curproc m);
      try change (has_proc (acked m)) with (has_proc m);
      try change (curproc (acked m)) with (curproc m);
      destruct (has_proc m); destruct (state (curproc m));
      cbn [andb is_running]; run; reflexivity.
  - rewrite E, Ht. reflexivity.
Qed.

End MoreKerneltrapFacts.

Lemma kerneltrap_restores_witness :
  sepc (final (kerneltrap Sample.xv6 Sample.quiet
                 (Sample.kernel_trap 256 0x8000000000000001 0 0)))
  = sepc (Sample.kernel_trap 256 0x8000000000000001 0 0) /\
  sstatus (final (kerneltrap Sample.xv6 Sample.quiet
                    (Sample.kernel_trap 256 0x8000000000000001 0 0)))
  = sstatus (Sample.kernel_trap 256 0x8000000000000001 0 0).
Proof.
  apply (kerneltrap_restores Sample.xv6 Sample.quiet
           (Sample.kernel_trap 256 0x8000000000000001 0 0) tt
           (final (kerneltrap Sample.xv6 Sample.quiet
                     (Sample.kernel_trap 256 0x8000000000000001 0 0)))
           (log_of (kerneltrap Sample.xv6 Sample.quiet
                      (Sample.kernel_trap 256 0x8000000000000001 0 0)))).
  vm_compute. reflexivity.
Defined.

Lemma kerneltrap_unknown_cause_witness :
  kerneltrap Sample.xv6 Sample.quiet (Sample.kernel_trap 256 13 0 0) =
  Stop (Panic "kerneltrap") (Sample.kernel_trap 256 13 0 0)
    [(Call_devintr, Sample.kernel_trap 256 13 0 0);
     (Call_printf "scause %p (%s)\n"
        [PInt (scause (Sample.kernel_trap 256 13 0 0));
         PStr (scause_desc (scause (Sample.kernel_trap 256 13 0 0)))],
      Sample.kernel_trap 256 13 0 0);
     (Call_printf "sepc=%p stval=%p\n"
        [PInt (sepc (Sample.kernel_trap 256 13 0 0));
         PInt (stval (Sample.kernel_trap 256 13 0 0))],
      Sample.kernel_trap 256 13 0 0)].
Proof.
  apply (kerneltrap_unknown_cause Sample.xv6 Sample.quiet
           (Sample.kernel_trap 256 13 0 0)); reflexivity.
Defined.

(** ** The trap from user space, from entry to end *)

(** As [sat_split], for programs whose first part is itself a sequence. *)
Ltac sat_deep :=
  lazymatch goal with
  | |- sat _ _ _ (bind (bind _ _) _) => apply sat_assoc; cbv beta; sat_deep
  | |- sat _ _ _ (bind (ret _) _) => apply sat_bind_ret; cbv beta; sat_deep
  | |- sat _ _ _ (bind (if _ then _ else _) _) =>
      apply sat_bind; [ apply sat_if; sat_deep | intro; sat_deep ]
  | |- sat _ _ _ (bind _ _) => apply sat_bind; [ sat_deep | intro; sat_deep ]
  | |- sat _ _ _ (ret _) => apply sat_ret
  | |- sat _ _ _ (gets _) => apply sat_gets
  | |- sat _ _ _ (when false _) => apply sat_ret
  | |- sat _ _ _ (when _ _) => apply sat_when; sat_deep
  | |- sat _ _ _ (if _ then _ else _) => apply sat_if; sat_deep
  | |- sat _ _ _ (halt _) => apply sat_halt
  | |- sat _ _ _ (call _) => apply sat_call
  | |- sat _ _ _ (modify _) => apply sat_modify
  | |- sat _ _ _ (on_world _) => apply sat_on_world
  | |- _ => idtac
  end.

Section MoreUsertrapFacts.

Context {W : Type} (pf : platform) (co : collab W).

Lemma usertrap_finish_run d (m : machine W) :
  usertrap_finish pf co d m =
  if truthy (killed (curproc m)) then Stop (Exit (-1)) m []
  else if d =? 2 then
    prepend [(Call_yield, m)] (usertrapret pf (yield_c co m))
  else usertrapret pf m.
Proof.
  unfold usertrap_finish, p_get, exit, yield. run.
  destruct (truthy (killed (curproc m))); unfold when at 1; run;
    [ reflexivity | ].
  destruct (d =? 2); unfold when; run; reflexivity.
Qed.

Lemma usertrap_finish_never_returns d (m : machine W) :
  returns (usertrap_finish pf co d m) = false.
Proof.
  rewrite usertrap_finish_run.
  destruct (truthy (killed (curproc m))); [ reflexivity | ].
  destruct (d =? 2); [ rewrite returns_prepend | ];
    apply usertrapret_never_returns.
Qed.

Lemma usertrap_ends :
  sat anything any_call (usertrap_end pf) (usertrap pf co).
Proof.
  unfold_trap. sat_split; unfold anything, any_call; intros; try constructor.
Qed.

(** [usertrap] never comes back to the trampoline code that called it: it
    ends in the jump to userret with the trap-frame address, in [exit(-1)],
    in one of the two panics (not from user mode, watchdog), or on a core
    without a process. *)
Theorem usertrap_never_returns (m : machine W) :
  returns (usertrap pf co m) = false /\
  (forall r m' l, usertrap pf co m = Stop r m' l -> usertrap_end pf r).
Proof.
  split.
  - rewrite usertrap_run.
    destruct (from_user pf m); [ | reflexivity ].
    destruct (has_proc m); [ | reflexivity ].
    apply bind_never_returns. intros d m1. apply usertrap_finish_never_returns.
  - intros r m' l H. destruct (usertrap_ends m I) as (_ & _ & Hw).
    rewrite H in Hw. exact Hw.
Qed.

(** A trap that did not come from user mode makes [usertrap] panic at once:
    nothing is called and the state, stvec included, is as it was. *)
Theorem usertrap_not_from_user (m : machine W) :
  from_user pf m = false ->
  usertrap pf co m = Stop (Panic "usertrap: not from user mode") m [].
Proof. intros H. now rewrite usertrap_run, H. Qed.

Lemma usertrap_dispatch_other c :
  c <> 8 -> is_page_fault c = false ->
  usertrap_dispatch pf co c = dispatch_devintr pf co.
Proof.
  intros H8 Hf. unfold usertrap_dispatch. apply Z.eqb_neq in H8. rewrite H8.
  unfold is_page_fault in Hf.
  destruct (c =? 15), (c =? 13), (c =? 12); try discriminate; reflexivity.
Qed.

(** A cause that is neither the system call, nor a page fault, nor one of
    the two interrupts kills the process: [usertrap] reports the cause with
    its description, sepc and stval, marks the process killed and ends in
    [exit(-1)] without returning to user space. *)
Theorem usertrap_unknown_cause (m : machine W) :
  from_user pf m = true -> has_proc m = true ->
  scause m <> 8 -> is_page_fault (scause m) = false ->
  is_external (scause m) = false -> is_timer (scause m) = false ->
  usertrap pf co m =
  Stop (Exit (-1)) (killed_state (entered pf m))
    [(Call_devintr, entered pf m);
     (Call_printf "usertrap(): unexpected scause %p (%s) pid=%d\n"
        [PInt (scause m); PStr (scause_desc (scause m));
         PInt (pid (curproc m))], entered pf m);
     (Call_printf "            sepc=%p stval=%p\n"
        [PInt (sepc m); PInt (stval m)], entered pf m)].
Proof.
  intros Hu Hp H8 Hf He Ht. rewrite usertrap_run, Hu, Hp.
  rewrite (usertrap_dispatch_other _ H8 Hf).
  unfold dispatch_devintr. rewrite bind_bind. unfold bind at 1.
  rewrite (devintr_other pf co (entered pf m) He Ht).
  change (truthy 0) with false.
  unfold printf, p_get, p_set, r_scause, r_sepc, r_stval. run.
  rewrite usertrap_finish_run. reflexivity.
Qed.

(** On a timer interrupt taken in user mode that is handled to the end,
    by a process that is not killed, [usertrap] gives up the processor
    once, after [devintr] and right before the return to user space. *)
Theorem usertrap_timer_yields (m : machine W) :
  from_user pf m = true -> has_proc m = true ->
  is_timer (scause m) = true -> killed (curproc m) = 0 ->
  tp m <> 0 \/ watchdog_expired m = false ->
  calls (log_of (usertrap pf co m))
  = calls (log_of (devintr pf co (entered pf m)))
    ++ [Call_yield; Call_usertrapret].
Proof.
  intros Hu Hp Ht Hk Hw. rewrite usertrap_run, Hu, Hp.
  assert (H8 : scause m <> 8)
    by (intros E; rewrite E in Ht; discriminate).
  assert (Hf : is_page_fault (scause m) = false).
  { unfold is_timer in Ht. apply Z.eqb_eq in Ht. now rewrite Ht. }
  rewrite (usertrap_dispatch_other _ H8 Hf).
  unfold dispatch_devintr. rewrite bind_bind. unfold bind at 1.
  rewrite (devintr_timer pf co (entered pf m) Ht), clockintr_run.
  change (tp (entered pf m)) with (tp m).
  change (watchdog_expired (entered pf m)) with (watchdog_expired m).
  assert (Hfin : forall m1 : machine W,
            killed (curproc m1) = 0 ->
            calls (log_of (usertrap_finish pf co 2 m1))
            = [Call_yield; Call_usertrapret]).
  { intros m1 H1. rewrite usertrap_finish_run, H1. simpl.
    rewrite usertrapret_run. now destruct (has_proc (yield_c co m1)). }
  destruct (Z.eqb_spec (tp m) 0) as [Hc | Hc];
    [ destruct (watchdog_expired m);
      [ destruct Hw; [ contradiction | discriminate ] | ] | ];
    simpl prepend; cbv iota; change (truthy 2) with true; run;
    rewrite !log_of_prepend, !calls_app, Hfin by exact Hk;
    simpl; reflexivity.
Qed.

End MoreUsertrapFacts.

Section UsertrapPaths.

Context {W : Type} (pf : platform) (co : collab W).

Lemma usertrap_finish_no_yield d :
  d <> 2 -> never is_yield (usertrap_finish pf co d).
Proof.
  intros Hd. unfold never, usertrap_finish.
  apply Z.eqb_neq in Hd. rewrite Hd. sat_auto.
Qed.

Lemma handle_page_fault_never f sc sv pc :
  In f [is_yield; is_usertrapret] ->
  never f (handle_page_fault pf co sc sv pc).
Proof. unfold never. intros [<- | [<- | []]]; sat_auto. Qed.

(** The dispatch of the system call and of the page faults, followed by the
    end of [usertrap], never yields. *)
Lemma fixed_dispatch_no_yield c :
  c = 8 \/ is_page_fault c = true ->
  never is_yield (which_dev <- usertrap_dispatch pf co c ;;
                  usertrap_finish pf co which_dev).
Proof.
  intros [-> | Hf].
  - unfold never, usertrap_dispatch. change (8 =? 8) with true. cbv iota.
    unfold_trap. sat_deep;
      try (apply usertrap_finish_no_yield; discriminate);
      unfold anything, any_stop; intros; try reflexivity; auto.
  - rewrite (usertrap_dispatch_page_fault pf co c Hf).
    unfold never, dispatch_page_fault. unfold r_stval, r_sepc.
    sat_deep; try (apply usertrap_finish_no_yield; discriminate).
    apply handle_page_fault_never. simpl. auto.
Qed.

(** [usertrap] gives up the processor on the timer interrupt only: on any
    other cause [yield] is not called. *)
Theorem usertrap_yield_only_on_timer (m : machine W) :
  is_timer (scause m) = false ->
  invoked is_yield (usertrap pf co m) = false.
Proof.
  intros Ht. rewrite usertrap_run.
  destruct (from_user pf m); [ | reflexivity ].
  destruct (has_proc m); [ | reflexivity ].
  destruct (Z.eq_dec (scause m) 8) as [H8 | H8].
  { apply never_invoked, fixed_dispatch_no_yield. now left. }
  destruct (is_page_fault (scause m)) eqn:Hf.
  { apply never_invoked, fixed_dispatch_no_yield. now right. }
  rewrite (usertrap_dispatch_other pf co _ H8 Hf).
  pose proof (never_invoked is_yield (devintr pf co) (entered pf m)
                (devintr_never_yield pf co)) as Hn.
  unfold dispatch_devintr. rewrite bind_bind. unfold bind at 1.
  destruct (devintr_outcome pf co (entered pf m))
    as [(He & _ & m1 & l1 & E) | [(Ht' & _) | (He & _ & E)]].
  - rewrite E in *. unfold invoked in Hn. simpl in Hn.
    rewrite invoked_prepend, Hn. simpl orb.
    change (truthy 1) with true. cbv iota. run.
    apply never_invoked, usertrap_finish_no_yield. discriminate.
  - change (scause (entered pf m)) with (scause m) in Ht'.
    rewrite Ht in Ht'. discriminate.
  - rewrite E. rewrite invoked_prepend. simpl orb.
    change (truthy 0) with false. cbv iota.
    unfold printf, p_get, p_set, r_scause, r_sepc, r_stval. run.
    rewrite !invoked_prepend. simpl orb.
    apply never_invoked, usertrap_finish_no_yield. discriminate.
Qed.

Lemma handle_page_fault_failed sc sv pc (m : machine W) :
  fst (allocated co sc sv m) < 0 ->
  exists l,
    handle_page_fault pf co sc sv pc m
    = Ret (-1) (killed_state (set_world (snd (allocated co sc sv m)) m)) l.
Proof.
  intros Hfl. rewrite handle_page_fault_run.
  destruct (page_fault_outcome_failure pf (curproc m) sc sv pc _
              (set_world (snd (allocated co sc sv m)) m) Hfl) as (l & E & _).
  rewrite E. eexists. reflexivity.
Qed.

(** A page fault the allocator cannot resolve ends the process: [usertrap]
    leaves it marked killed and ends in [exit(-1)], and [usertrapret] is
    not called. *)
Theorem usertrap_page_fault_kills (m : machine W) :
  from_user pf m = true -> has_proc m = true ->
  is_page_fault (scause m) = true ->
  fst (allocated co (scause m) (stval m) (entered pf m)) < 0 ->
  exists l,
    usertrap pf co m
    = Stop (Exit (-1))
        (killed_state
           (set_world (snd (allocated co (scause m) (stval m) (entered pf m)))
                      (entered pf m))) l /\
    existsb is_usertrapret (calls l) = false.
Proof.
  intros Hu Hp Hf Hfl. rewrite (usertrap_page_fault_run pf co m Hu Hp Hf).
  pose proof (never_invoked is_usertrapret
                (handle_page_fault pf co (scause m) (stval m) (sepc m))
                (entered pf m)
                (handle_page_fault_never _ _ _ _ (or_intror (or_introl eq_refl))))
    as Hn.
  destruct (handle_page_fault_failed (scause m) (stval m) (sepc m)
              (entered pf m) Hfl) as (l & E).
  unfold bind at 1. rewrite E in *. run.
  rewrite usertrap_finish_run. simpl.
  eexists. split; [ reflexivity | ].
  unfold invoked in Hn. simpl in Hn. rewrite app_nil_r. exact Hn.
Qed.

(** A page fault the allocator resolves, for a process that is not killed,
    returns to user space at the faulting instruction: [usertrap] ends in
    the jump to userret with sepc at the trapped program counter, without
    having yielded. *)
Theorem usertrap_page_fault_resumes (m : machine W) :
  from_user pf m = true -> has_proc m = true ->
  is_page_fault (scause m) = true ->
  0 <= fst (allocated co (scause m) (stval m) (entered pf m)) ->
  killed (curproc m) = 0 ->
  exists m' l,
    usertrap pf co m = Stop (user_jump pf m) m' l /\
    sepc m' = sepc m /\ saved_pc m' = sepc m /\
    existsb is_yield (calls l) = false.
Proof.
  intros Hu Hp Hf Hfl Hk.
  rewrite (usertrap_page_fault_run pf co m Hu Hp Hf).
  unfold bind at 1 2. rewrite handle_page_fault_run.
  rewrite (page_fault_outcome_success pf (curproc (entered pf m)) _ _ _ _ _ Hfl).
  simpl prepend. cbv iota. run. rewrite usertrap_finish_run.
  change (killed (curproc (set_world
            (snd (allocated co (scause m) (stval m) (entered pf m)))
            (entered pf m)))) with (killed (curproc m)).
  rewrite Hk. change (truthy 0) with false. change (0 =? 2) with false.
  cbv iota. rewrite usertrapret_run. simpl has_proc. rewrite Hp.
  simpl prepend. eexists _, _.
  split; [ reflexivity | ]. split; [ reflexivity | ].
  split; reflexivity.
Qed.

End UsertrapPaths.

Section UsertrapKilled.

Context {W : Type} (pf : platform) (co : collab W).

(** After the system call: a process that [syscall] left marked killed ends
    in [exit(-1)] and is not returned to user space; one that it left alive
    is returned there with sepc at the program counter the trap frame holds
    after the call, which is the trapped one plus 4 (in 64 bits) when
    [syscall] did not change it. *)
Theorem usertrap_after_syscall (m : machine W) :
  from_user pf m = true -> has_proc m = true ->
  scause m = 8 -> killed (curproc m) = 0 ->
  (killed (curproc (syscall_c co (at_syscall pf m))) <> 0 ->
   usertrap pf co m
   = Stop (Exit (-1)) (syscall_c co (at_syscall pf m))
       [(Call_syscall, at_syscall pf m)]) /\
  (killed (curproc (syscall_c co (at_syscall pf m))) = 0 ->
   has_proc (syscall_c co (at_syscall pf m)) = true ->
   usertrap pf co m
   = Stop (user_jump pf (syscall_c co (at_syscall pf m)))
       (resumed pf (syscall_c co (at_syscall pf m)))
       [(Call_syscall, at_syscall pf m);
        (Call_usertrapret, syscall_c co (at_syscall pf m))] /\
   sepc (final (usertrap pf co m)) = saved_pc (syscall_c co (at_syscall pf m)) /\
   (saved_pc (syscall_c co (at_syscall pf m)) = saved_pc (at_syscall pf m) ->
    sepc (final (usertrap pf co m)) = wrap64 (sepc m + 4))).
Proof.
  intros Hu Hp Hc Hk. rewrite (usertrap_syscall_run pf co m Hu Hp Hc Hk).
  rewrite usertrap_finish_run. split.
  - intros Hd. apply Z.eqb_neq in Hd. unfold truthy. rewrite Hd. reflexivity.
  - intros Hd Hq. rewrite Hd. change (truthy 0) with false.
    change (0 =? 2) with false. cbv iota.
    rewrite usertrapret_run, Hq. simpl.
    split; [ reflexivity | ]. split; [ reflexivity | ].
    intros E. unfold saved_pc in E. rewrite E. reflexivity.
Qed.

Lemma usertrap_dispatch_killed c :
  c <> 8 ->
  sat (fun m : machine W => killed (curproc m) <> 0)
      (fun e _ => is_usertrapret e = false) not_user_return
      (usertrap_dispatch pf co c).
Proof.
  intros H8. unfold usertrap_dispatch. apply Z.eqb_neq in H8. rewrite H8.
  unfold dispatch_page_fault, dispatch_devintr. unfold_trap.
  sat_split; intros; try reflexivity; try exact I; try assumption;
    simpl; try discriminate.
Qed.

(** A process that is already marked killed when a trap other than a system
    call is taken is never returned to user space: [usertrapret] is not
    called and [usertrap] does not end in the jump to userret. *)
Theorem usertrap_killed_never_resumes (m : machine W) :
  scause m <> 8 -> killed (curproc m) <> 0 ->
  invoked is_usertrapret (usertrap pf co m) = false /\
  (forall r m' l, usertrap pf co m = Stop r m' l -> not_user_return r).
Proof.
  intros H8 Hk. rewrite usertrap_run.
  destruct (from_user pf m);
    [ | split; [ reflexivity | intros r m' l H; injection H as <- _ _; exact I ] ].
  destruct (has_proc m);
    [ | split; [ reflexivity | intros r m' l H; injection H as <- _ _; exact I ] ].
  destruct (usertrap_dispatch_killed (scause m) H8 (entered pf m) Hk)
    as (Hi & Hl & Hw).
  apply log_ok_never, filter_nil_existsb in Hl.
  unfold bind.
  destruct (usertrap_dispatch pf co (scause m) (entered pf m))
    as [d m1 l1 | r1 m1 l1]; simpl in Hi, Hl, Hw.
  - rewrite usertrap_finish_run.
    apply Z.eqb_neq in Hi. unfold truthy. rewrite Hi. simpl.
    rewrite app_nil_r. split.
    + exact Hl.
    + intros r m' l H. injection H as <- _ _. exact I.
  - split.
    + exact Hl.
    + intros r m' l H. injection H as <- _ _. exact Hw.
Qed.

End UsertrapKilled.

Lemma usertrap_not_from_user_witness :
  usertrap Sample.xv6 Sample.quiet (Sample.kernel_trap 256 8 0 0)
  = Stop (Panic "usertrap: not from user mode") (Sample.kernel_trap 256 8 0 0) [].
Proof.
  apply (usertrap_not_from_user Sample.xv6 Sample.quiet
           (Sample.kernel_trap 256 8 0 0)).
  reflexivity.
Defined.

Lemma usertrap_never_returns_witness :
  returns (usertrap Sample.xv6 Sample.quiet
             (Sample.user_trap 8 0 0x1000 0 Sample.init 0)) = false /\
  usertrap_end Sample.xv6
    (user_jump Sample.xv6 (Sample.user_trap 8 0 0x1000 0 Sample.init 0)).
Proof.
  destruct (usertrap_never_returns Sample.xv6 Sample.quiet
              (Sample.user_trap 8 0 0x1000 0 Sample.init 0)) as (H1 & H2).
  split; [ exact H1 | ].
  apply (H2 _ (final (usertrap Sample.xv6 Sample.quiet
                        (Sample.user_trap 8 0 0x1000 0 Sample.init 0)))
            (log_of (usertrap Sample.xv6 Sample.quiet
                       (Sample.user_trap 8 0 0x1000 0 Sample.init 0)))).
  vm_compute. reflexivity.
Defined.

Lemma usertrap_unknown_cause_witness :
  usertrap Sample.xv6 Sample.quiet (Sample.user_trap 2 0 0x1000 0 Sample.init 0) =
  Stop (Exit (-1))
    (killed_state (entered Sample.xv6 (Sample.user_trap 2 0 0x1000 0 Sample.init 0)))
    [(Call_devintr, entered Sample.xv6 (Sample.user_trap 2 0 0x1000 0 Sample.init 0));
     (Call_printf "usertrap(): unexpected scause %p (%s) pid=%d\n"
        [PInt (scause (Sample.user_trap 2 0 0x1000 0 Sample.init 0));
         PStr (scause_desc (scause (Sample.user_trap 2 0 0x1000 0 Sample.init 0)));
         PInt (pid (curproc (Sample.user_trap 2 0 0x1000 0 Sample.init 0)))],
      entered Sample.xv6 (Sample.user_trap 2 0 0x1000 0 Sample.init 0));
     (Call_printf "            sepc=%p stval=%p\n"
        [PInt (sepc (Sample.user_trap 2 0 0x1000 0 Sample.init 0));
         PInt (stval (Sample.user_trap 2 0 0x1000 0 Sample.init 0))],
      entered Sample.xv6 (Sample.user_trap 2 0 0x1000 0 Sample.init 0))].
Proof.
  apply (usertrap_unknown_cause Sample.xv6 Sample.quiet
           (Sample.user_trap 2 0 0x1000 0 Sample.init 0));
    [ reflexivity | reflexivity | discriminate
    | reflexivity | reflexivity | reflexivity ].
Defined.

Lemma usertrap_timer_yields_witness :
  calls (log_of (usertrap Sample.xv6 Sample.quiet
                   (Sample.user_trap 0x8000000000000001 0 0x1000 0 Sample.init 0)))
  = calls (log_of (devintr Sample.xv6 Sample.quiet
                     (entered Sample.xv6
                        (Sample.user_trap 0x8000000000000001 0 0x1000 0
                           Sample.init 0))))
    ++ [Call_yield; Call_usertrapret].
Proof.
  apply (usertrap_timer_yields Sample.xv6 Sample.quiet
           (Sample.user_trap 0x8000000000000001 0 0x1000 0 Sample.init 0));
    [ reflexivity | reflexivity | reflexivity | reflexivity
    | right; reflexivity ].
Defined.

Lemma usertrap_yield_only_on_timer_witness :
  invoked is_yield
    (usertrap Sample.xv6 Sample.quiet
       (Sample.user_trap 0x8000000000000009 0 0x1000 0 Sample.init 10)) = false.
Proof.
  apply (usertrap_yield_only_on_timer Sample.xv6 Sample.quiet
           (Sample.user_trap 0x8000000000000009 0 0x1000 0 Sample.init 10)).
  reflexivity.
Defined.

Lemma usertrap_page_fault_kills_witness :
  exists l,
    usertrap Sample.xv6 Faulty.no_memory
      (Sample.user_trap 0xf 0x4321 0x1000 0 Sample.init 0)
    = Stop (Exit (-1))
        (killed_state
           (set_world
              (snd (allocated Faulty.no_memory 0xf 0x4321
                      (entered Sample.xv6
                         (Sample.user_trap 0xf 0x4321 0x1000 0 Sample.init 0))))
              (entered Sample.xv6
                 (Sample.user_trap 0xf 0x4321 0x1000 0 Sample.init 0)))) l /\
    existsb is_usertrapret (calls l) = false.
Proof.
  apply (usertrap_page_fault_kills Sample.xv6 Faulty.no_memory
           (Sample.user_trap 0xf 0x4321 0x1000 0 Sample.init 0));
    reflexivity.
Defined.

Lemma usertrap_page_fault_resumes_witness :
  exists m' l,
    usertrap Sample.xv6 Sample.quiet
      (Sample.user_trap 0xc 0x4321 0x1000 0 Sample.init 0)
    = Stop (user_jump Sample.xv6
              (Sample.user_trap 0xc 0x4321 0x1000 0 Sample.init 0)) m' l /\
    sepc m' = 0x1000 /\ saved_pc m' = 0x1000 /\
    existsb is_yield (calls l) = false.
Proof.
  apply (usertrap_page_fault_resumes Sample.xv6 Sample.quiet
           (Sample.user_trap 0xc 0x4321 0x1000 0 Sample.init 0));
    [ reflexivity | reflexivity | reflexivity | discriminate | reflexivity ].
Defined.

Lemma usertrap_after_syscall_witness :
  usertrap Sample.xv6 Faulty.fatal_call
    (Sample.user_trap 8 0 0x1000 0 Sample.init 0)
  = Stop (Exit (-1))
      (syscall_c Faulty.fatal_call
         (at_syscall Sample.xv6 (Sample.user_trap 8 0 0x1000 0 Sample.init 0)))
      [(Call_syscall,
        at_syscall Sample.xv6 (Sample.user_trap 8 0 0x1000 0 Sample.init 0))] /\
  sepc (final (usertrap Sample.xv6 Sample.quiet
                 (Sample.user_trap 8 0 0x1000 0 Sample.init 0)))
  = wrap64 (0x1000 + 4).
Proof.
  split.
  - apply (proj1 (usertrap_after_syscall Sample.xv6 Faulty.fatal_call
                    (Sample.user_trap 8 0 0x1000 0 Sample.init 0)
                    eq_refl eq_refl eq_refl eq_refl)).
    discriminate.
  - apply (proj2 (usertrap_after_syscall Sample.xv6 Sample.quiet
                    (Sample.user_trap 8 0 0x1000 0 Sample.init 0)
                    eq_refl eq_refl eq_refl eq_refl) eq_refl eq_refl).
    reflexivity.
Defined.

Lemma usertrap_killed_never_resumes_witness :
  invoked is_usertrapret
    (usertrap Sample.xv6 Sample.quiet
       (Sample.user_trap 0x8000000000000009 0 0x1000 0
          (set_killed 1 Sample.init) 10)) = false /\
  not_user_return (Exit (-1)).
Proof.
  destruct (usertrap_killed_never_resumes Sample.xv6 Sample.quiet
              (Sample.user_trap 0x8000000000000009 0 0x1000 0
                 (set_killed 1 Sample.init) 10)) as (H1 & H2);
    [ discriminate | discriminate | ].
  split; [ exact H1 | ].
  apply (H2 _ (final (usertrap Sample.xv6 Sample.quiet
                        (Sample.user_trap 0x8000000000000009 0 0x1000 0
                           (set_killed 1 Sample.init) 10)))
            (log_of (usertrap Sample.xv6 Sample.quiet
                       (Sample.user_trap 0x8000000000000009 0 0x1000 0
                          (set_killed 1 Sample.init) 10)))).
  vm_compute. reflexivity.
Defined.

